(** * The double-signing guard of [types/priv_validator.go]

    A shallow embedding of [PrivValidatorFS]: the record that remembers the
    last height/round/step (HRS) a validator signed, the check that refuses
    to sign behind it, the replay of the last signature at the same HRS, and
    the persistence of the record with its key-escrow rule.

    Go integers ([int64], [int], [int8]) are read as [Z]: the file only
    compares and assigns them, it never does arithmetic on them, so no
    wrap-around occurs in the embedded code.  [pv.mtx] serialises the
    methods; the embedding is sequential and every method is one state
    transformer. *)

From Stdlib Require Import ZArith Ascii String List Lia.
From Stdlib.Strings Require Import Byte.
From stdpp Require Import base decidable option list strings gmap.

Local Open Scope string_scope.
Local Open Scope Z_scope.

#[global] Instance byte_eq_dec : EqDecision byte := Byte.byte_eq_dec.

(** ** Go values *)

(** A byte slice; [None] is the nil slice, which Go tells apart from an
    empty one with [!= nil] but not with [bytes.Equal]. *)
Definition GoBytes : Type := option (list byte).

Definition contents (b : GoBytes) : list byte := default [] b.

Definition bytes_Equal (a b : GoBytes) : bool :=
  bool_decide (contents a = contents b).

(** An [error] is known here by its message. *)
Definition error : Type := string.

(** The newline of a format string. *)
Definition nl : string := String "010"%char EmptyString.

Definition Fmt_v (prefix : string) (err : error) : error :=
  (prefix ++ err)%string.

(** go-crypto wraps an inner interface value; the zero struct has a nil
    inner value and [Empty()] tests for it. *)
Module crypto.
Definition PrivKey : Type := option (list byte).
Definition PubKey : Type := option (list byte).
Definition Signature : Type := option (list byte).

Definition Empty {A : Type} (k : option A) : bool :=
  match k with None => true | Some _ => false end.
End crypto.

(** ** Outcomes and the state monad of the methods *)

Inductive result (A : Type) : Type :=
| Ret (a : A)
| Panic (msg : string)
| Exit (msg : string).
Arguments Ret {A} a.
Arguments Panic {A} msg.
Arguments Exit {A} msg.

(** A computation over a state [S]; after a panic the state is the one the
    panic left behind. *)
Definition M (S A : Type) : Type := S -> result A * S.

Definition ret {S A} (a : A) : M S A := fun s => (Ret a, s).

Definition bind {S A B} (m : M S A) (k : A -> M S B) : M S B :=
  fun s =>
    match m s with
    | (Ret a, s') => k a s'
    | (Panic msg, s') => (Panic msg, s')
    | (Exit msg, s') => (Exit msg, s')
    end.

Definition panic {S A} (msg : string) : M S A := fun s => (Panic msg, s).
Definition exit {S A} (msg : string) : M S A := fun s => (Exit msg, s).
Definition get {S} : M S S := fun s => (Ret s, s).

(** tmlibs/common: the two panics and the process exit, known here by the
    value they are raised with. *)
Module cmn.
Definition PanicSanity {S A} (v : string) : M S A := panic v.
Definition PanicCrisis {S A} (v : string) : M S A := panic v.
Definition Exit {S A} (s : string) : M S A := exit s.
End cmn.

Declare Scope go_scope.
Delimit Scope go_scope with go.
Notation "x <- c1 ;; c2" := (bind c1 (fun x => c2))
  (at level 100, c1 at next level, right associativity) : go_scope.
Notation "c1 ;; c2" := (bind c1 (fun _ => c2))
  (at level 100, right associativity) : go_scope.

(** ** The world outside the validator *)

Inductive event : Type :=
| EvSign (msg : GoBytes)                     (* the Signer was invoked on msg *)
| EvWrite (path : string) (data : list byte) (* WriteFileAtomic replaced path *)
| EvPrintf (lastHeight height : Z).          (* the line checkHRS prints *)

Record World : Type := mkWorld {
  disk : gmap string (list byte);
  trace : list event
}.

Definition log (e : event) (w : World) : World :=
  {| disk := disk w; trace := trace w ++ [e] |}.

(** [Sign(msg) (crypto.Signature, error)]; a backend may look at the world
    and may panic. *)
Definition SignerT : Type := World -> GoBytes -> result (crypto.Signature * option error).

(** ** Messages (the fields this file reads and writes) *)

Module Vote.
Record t : Type := mk {
  Height : Z;
  Round : Z;
  Timestamp : Z;
  Type_ : byte;
  Signature : crypto.Signature
}.
Definition with_Signature (sig : crypto.Signature) (v : t) : t :=
  {| Height := Height v; Round := Round v; Timestamp := Timestamp v;
     Type_ := Type_ v; Signature := sig |}.
End Vote.

Module Proposal.
Record t : Type := mk {
  Height : Z;
  Round : Z;
  Timestamp : Z;
  Signature : crypto.Signature
}.
Definition with_Signature (sig : crypto.Signature) (p : t) : t :=
  {| Height := Height p; Round := Round p; Timestamp := Timestamp p;
     Signature := sig |}.
End Proposal.

Module Heartbeat.
Record t : Type := mk {
  Height : Z;
  Round : Z;
  Signature : crypto.Signature
}.
Definition with_Signature (sig : crypto.Signature) (h : t) : t :=
  {| Height := Height h; Round := Round h; Signature := sig |}.
End Heartbeat.

Inductive Signable : Type :=
| SVote (v : Vote.t)
| SProposal (p : Proposal.t)
| SHeartbeat (h : Heartbeat.t).

(** ** The validator *)

Definition stepNone : Z := 0.
Definition stepPropose : Z := 1.
Definition stepPrevote : Z := 2.
Definition stepPrecommit : Z := 3.

Record PrivValidatorFS : Type := mkPV {
  Address : GoBytes;
  PubKey : crypto.PubKey;
  LastHeight : Z;
  LastRound : Z;
  LastStep : Z;
  LastSignature : crypto.Signature;
  LastSignBytes : GoBytes;
  PrivKey : crypto.PrivKey;
  Signer : SignerT;
  filePath : string;
  oldPrivKey : crypto.PrivKey
}.

Definition set_PrivKey (k : crypto.PrivKey) (pv : PrivValidatorFS) : PrivValidatorFS :=
  mkPV (Address pv) (PubKey pv) (LastHeight pv) (LastRound pv) (LastStep pv)
       (LastSignature pv) (LastSignBytes pv) k (Signer pv) (filePath pv) (oldPrivKey pv).

(** The five assignments shared by saveSigned, Reset and ModifyLastHeight. *)
Definition set_last (height round step : Z) (sig : crypto.Signature)
    (signBytes : GoBytes) (pv : PrivValidatorFS) : PrivValidatorFS :=
  mkPV (Address pv) (PubKey pv) height round step sig signBytes
       (PrivKey pv) (Signer pv) (filePath pv) (oldPrivKey pv).

(** The state of a method call: the receiver and the world. *)
Definition St : Type := (PrivValidatorFS * World)%type.

Definition get_pv : M St PrivValidatorFS := fun s => (Ret (fst s), s).
Definition modify_pv (f : PrivValidatorFS -> PrivValidatorFS) : M St unit :=
  fun s => (Ret tt, (f (fst s), snd s)).
Definition get_world : M St World := fun s => (Ret (snd s), s).
Definition modify_world (f : World -> World) : M St unit :=
  fun s => (Ret tt, (fst s, f (snd s))).

(** The SigningState of the specification. *)
Definition SigningState (pv : PrivValidatorFS) :
    Z * Z * Z * GoBytes * crypto.Signature :=
  (LastHeight pv, LastRound pv, LastStep pv, LastSignBytes pv, LastSignature pv).

Definition last_hrs (pv : PrivValidatorFS) : Z * Z * Z :=
  (LastHeight pv, LastRound pv, LastStep pv).

(** ** External collaborators

    Code and constants of other files and packages that this file calls:
    the vote-type constants, the canonical encoder [SignBytes], the JSON
    codecs, the file system, the clock and go-crypto's key operations. *)
Class Externals : Type := {
  VoteTypePrevote : byte;
  VoteTypePrecommit : byte;
  SignBytes : string -> Signable -> GoBytes;
  (* canonical JSON of votes and proposals, as the two checkers decode it *)
  CanonicalJSONOnceVote : Type;
  CanonicalJSONOnceProposal : Type;
  CanonicalTime_Now : string;
  json_Unmarshal_vote : GoBytes -> error + CanonicalJSONOnceVote;
  json_Unmarshal_proposal : GoBytes -> error + CanonicalJSONOnceProposal;
  set_Vote_Timestamp : string -> CanonicalJSONOnceVote -> CanonicalJSONOnceVote;
  set_Proposal_Timestamp :
    string -> CanonicalJSONOnceProposal -> CanonicalJSONOnceProposal;
  json_Marshal_vote : CanonicalJSONOnceVote -> GoBytes;
  json_Marshal_proposal : CanonicalJSONOnceProposal -> GoBytes;
  (* persistence of the validator *)
  json_Marshal : PrivValidatorFS -> error + list byte;
  json_Unmarshal : list byte -> error + PrivValidatorFS;
  WriteFileAtomic_err : World -> string -> list byte -> option error;
  (* go-crypto *)
  GenPrivKeyEd25519 : World -> list byte;
  PrivKey_PubKey : list byte -> list byte;
  PubKey_Address : list byte -> list byte;
  PrivKey_Sign : list byte -> GoBytes -> crypto.Signature
}.

Section PrivValidator.
Context `{Ext : Externals}.
Local Open Scope go_scope.

Definition voteToStep (vote : Vote.t) : M St Z :=
  if bool_decide (Vote.Type_ vote = VoteTypePrevote) then ret stepPrevote
  else if bool_decide (Vote.Type_ vote = VoteTypePrecommit) then ret stepPrecommit
  else cmn.PanicSanity "Unknown vote type".

(** *** Signers *)

Definition nil_deref : string := "invalid memory address or nil pointer dereference".

(** The zero value of the embedded [Signer] interface. *)
Definition nilSigner : SignerT := fun _ _ => Panic nil_deref.

(** [DefaultSigner.Sign]: [ds.PrivKey.Sign(msg), nil]. *)
Definition NewDefaultSigner (priv : crypto.PrivKey) : SignerT :=
  fun _ msg =>
    match priv with
    | Some k => Ret (PrivKey_Sign k msg, None)
    | None => Panic nil_deref
    end.

(** [pv.Sign(msg)], the promoted method of the embedded interface. *)
Definition Sign (msg : GoBytes) : M St (crypto.Signature * option error) :=
  fun s =>
    let s' := (fst s, log (EvSign msg) (snd s)) in
    match Signer (fst s) (snd s) msg with
    | Ret r => (Ret r, s')
    | Panic m => (Panic m, s')
    | Exit m => (Exit m, s')
    end.

(** *** Persistence *)

Definition WriteFileAtomic (path : string) (data : list byte) : M St (option error) :=
  w <- get_world ;;
  match WriteFileAtomic_err w path data with
  | Some err => ret (Some err)
  | None =>
      modify_world (fun w =>
        {| disk := <[path := data]> (disk w);
           trace := trace w ++ [EvWrite path data] |}) ;;
      ret None
  end.

(** The copy that is serialised: the receiver with the key-escrow rule
    applied. *)
Definition bakPrivVal (pv : PrivValidatorFS) : PrivValidatorFS :=
  if negb (crypto.Empty (oldPrivKey pv)) then set_PrivKey (oldPrivKey pv) pv
  else pv.

Definition save : M St unit :=
  pv <- get_pv ;;
  if bool_decide (filePath pv = "")
  then cmn.PanicSanity "Cannot save PrivValidator: filePath not set"
  else
    let bak := bakPrivVal pv in
    match json_Marshal bak with
    | inl err => cmn.PanicCrisis err
    | inr jsonBytes =>
        werr <- WriteFileAtomic (filePath bak) jsonBytes ;;
        match werr with
        | Some err => cmn.PanicCrisis err
        | None => ret tt
        end
    end.

Definition Save : M St unit := save.

Definition Reset : M St unit :=
  modify_pv (set_last 0 0 0 None None) ;;
  Save.

Definition ModifyLastHeight (h : Z) : M St unit :=
  modify_pv (set_last h 0 3 None None) ;;
  Save.

(** *** The HRS check *)

Definition checkHRS (height round step : Z) : M St (bool * option error) :=
  pv <- get_pv ;;
  if LastHeight pv >? height then
    modify_world (log (EvPrintf (LastHeight pv) height)) ;;
    ret (false, Some "Height regression")
  else if LastHeight pv =? height then
    if LastRound pv >? round then ret (false, Some "Round regression")
    else if LastRound pv =? round then
      if LastStep pv >? step then ret (false, Some "Step regression")
      else if LastStep pv =? step then
        match LastSignBytes pv with
        | Some _ =>
            if crypto.Empty (LastSignature pv)
            then panic "privVal: LastSignature is nil but LastSignBytes is not!"
            else ret (true, None)
        | None => ret (false, Some "No LastSignature found")
        end
      else ret (false, None)
    else ret (false, None)
  else ret (false, None).

Definition saveSigned (height round step : Z) (signBytes : GoBytes)
    (sig : crypto.Signature) : M St unit :=
  modify_pv (set_last height round step sig signBytes) ;;
  save.

(** [checkOnlyDifferByTimestamp]: a checker may panic. *)
Definition checkOnlyDifferByTimestamp : Type := GoBytes -> GoBytes -> result bool.

Definition lift {A} (r : result A) : M St A := fun s => (r, s).

Definition signBytesHRS (height round step : Z) (signBytes : GoBytes)
    (checkFn : checkOnlyDifferByTimestamp) : M St (crypto.Signature * option error) :=
  let sig : crypto.Signature := None in
  hrs <- checkHRS height round step ;;
  match snd hrs with
  | Some err => ret (sig, Some err)
  | None =>
      if fst hrs then
        pv <- get_pv ;;
        same <- (if bytes_Equal signBytes (LastSignBytes pv) then ret true
                 else lift (checkFn (LastSignBytes pv) signBytes)) ;;
        if same then ret (LastSignature pv, None)
        else ret (sig, Some "Conflicting data")
      else
        res <- Sign signBytes ;;
        match snd res with
        | Some err => ret (fst res, Some err)
        | None =>
            saveSigned height round step signBytes (fst res) ;;
            ret (fst res, None)
        end
  end.

(** *** The two equivalence checkers *)

Definition checkVotesOnlyDifferByTimestamp : checkOnlyDifferByTimestamp :=
  fun lastSignBytes newSignBytes =>
    match json_Unmarshal_vote lastSignBytes with
    | inl err =>
        Panic ("LastSignBytes cannot be unmarshalled into vote: " ++ err)%string
    | inr lastVote =>
        match json_Unmarshal_vote newSignBytes with
        | inl err =>
            Panic ("signBytes cannot be unmarshalled into vote: " ++ err)%string
        | inr newVote =>
            let now := CanonicalTime_Now in
            let lastVote := set_Vote_Timestamp now lastVote in
            let newVote := set_Vote_Timestamp now newVote in
            let lastVoteBytes := json_Marshal_vote lastVote in
            let newVoteBytes := json_Marshal_vote newVote in
            Ret (bytes_Equal newVoteBytes lastVoteBytes)
        end
    end.

Definition checkProposalsOnlyDifferByTimestamp : checkOnlyDifferByTimestamp :=
  fun lastSignBytes newSignBytes =>
    match json_Unmarshal_proposal lastSignBytes with
    | inl err =>
        Panic ("LastSignBytes cannot be unmarshalled into proposal: " ++ err)%string
    | inr lastProposal =>
        match json_Unmarshal_proposal newSignBytes with
        | inl err =>
            Panic ("signBytes cannot be unmarshalled into proposal: " ++ err)%string
        | inr newProposal =>
            let now := CanonicalTime_Now in
            let lastProposal := set_Proposal_Timestamp now lastProposal in
            let newProposal := set_Proposal_Timestamp now newProposal in
            let lastProposalBytes := json_Marshal_proposal lastProposal in
            let newProposalBytes := json_Marshal_proposal newProposal in
            Ret (bytes_Equal newProposalBytes lastProposalBytes)
        end
    end.

(** *** The signing methods

    Each returns the message as the call leaves it together with the
    [error] it returns. *)

Definition SignVote (chainID : string) (vote : Vote.t) : M St (Vote.t * option error) :=
  step <- voteToStep vote ;;
  res <- signBytesHRS (Vote.Height vote) (Vote.Round vote) step
           (SignBytes chainID (SVote vote)) checkVotesOnlyDifferByTimestamp ;;
  match snd res with
  | Some err => ret (vote, Some (Fmt_v "Error signing vote: " err))
  | None => ret (Vote.with_Signature (fst res) vote, None)
  end.

Definition SignProposal (chainID : string) (proposal : Proposal.t)
    : M St (Proposal.t * option error) :=
  res <- signBytesHRS (Proposal.Height proposal) (Proposal.Round proposal) stepPropose
           (SignBytes chainID (SProposal proposal))
           checkProposalsOnlyDifferByTimestamp ;;
  match snd res with
  | Some err => ret (proposal, Some (Fmt_v "Error signing proposal: " err))
  | None => ret (Proposal.with_Signature (fst res) proposal, None)
  end.

Definition SignHeartbeat (chainID : string) (heartbeat : Heartbeat.t)
    : M St (Heartbeat.t * option error) :=
  res <- Sign (SignBytes chainID (SHeartbeat heartbeat)) ;;
  ret (Heartbeat.with_Signature (fst res) heartbeat, snd res).

(** *** Creating and loading a validator *)

Definition GenPrivValidatorFS (filePath : string) (w : World) : PrivValidatorFS :=
  let privKey := GenPrivKeyEd25519 w in
  {| Address := Some (PubKey_Address (PrivKey_PubKey privKey));
     PubKey := Some (PrivKey_PubKey privKey);
     LastHeight := 0;
     LastRound := 0;
     LastStep := stepNone;
     LastSignature := None;
     LastSignBytes := None;
     PrivKey := Some privKey;
     Signer := NewDefaultSigner (Some privKey);
     filePath := filePath;
     oldPrivKey := Some privKey |}.

Definition LoadPrivValidatorFSWithSigner (path : string)
    (signerFunc : PrivValidatorFS -> SignerT) : M World PrivValidatorFS :=
  w <- get ;;
  match disk w !! path with
  | None => cmn.Exit ("open " ++ path ++ ": no such file or directory")%string
  | Some privValJSONBytes =>
      match json_Unmarshal privValJSONBytes with
      | inl err =>
          cmn.Exit ("Error reading PrivValidator from " ++ path ++ ": " ++ err ++ nl)%string
      | inr j =>
          (* Unmarshal fills the exported, tagged fields only *)
          let privVal :=
            mkPV (Address j) (PubKey j) (LastHeight j) (LastRound j) (LastStep j)
                 (LastSignature j) (LastSignBytes j) (PrivKey j) nilSigner "" None in
          match PrivKey privVal with
          | None => panic nil_deref
          | Some k =>
              let privVal :=
                mkPV (Some (PubKey_Address (PrivKey_PubKey k)))
                     (Some (PrivKey_PubKey k))
                     (LastHeight privVal) (LastRound privVal) (LastStep privVal)
                     (LastSignature privVal) (LastSignBytes privVal) (PrivKey privVal)
                     nilSigner path (PrivKey privVal) in
              ret (mkPV (Address privVal) (PubKey privVal) (LastHeight privVal)
                        (LastRound privVal) (LastStep privVal) (LastSignature privVal)
                        (LastSignBytes privVal) (PrivKey privVal) (signerFunc privVal)
                        (filePath privVal) (oldPrivKey privVal))
          end
      end
  end.

Definition LoadPrivValidatorFS (path : string) : M World PrivValidatorFS :=
  LoadPrivValidatorFSWithSigner path (fun privVal => NewDefaultSigner (PrivKey privVal)).

(** ** Requests, orders and operations used to state the properties *)

(** A vote or proposal signing request. *)
Inductive request : Type :=
| ReqVote (chainID : string) (vote : Vote.t)
| ReqProposal (chainID : string) (proposal : Proposal.t).

Definition req_msg (req : request) : Signable :=
  match req with
  | ReqVote _ vote => SVote vote
  | ReqProposal _ proposal => SProposal proposal
  end.

(** The canonical bytes of the request. *)
Definition req_bytes (req : request) : GoBytes :=
  match req with
  | ReqVote chainID vote => SignBytes chainID (SVote vote)
  | ReqProposal chainID proposal => SignBytes chainID (SProposal proposal)
  end.

(** The (height, round, step) of the request; a vote that is neither a
    prevote nor a precommit has no step. *)
Definition req_hrs (req : request) : option (Z * Z * Z) :=
  match req with
  | ReqVote _ vote =>
      if bool_decide (Vote.Type_ vote = VoteTypePrevote)
      then Some (Vote.Height vote, Vote.Round vote, stepPrevote)
      else if bool_decide (Vote.Type_ vote = VoteTypePrecommit)
      then Some (Vote.Height vote, Vote.Round vote, stepPrecommit)
      else None
  | ReqProposal _ proposal =>
      Some (Proposal.Height proposal, Proposal.Round proposal, stepPropose)
  end.

(** The kind-specific equivalence checker. *)
Definition req_check (req : request) : checkOnlyDifferByTimestamp :=
  match req with
  | ReqVote _ _ => checkVotesOnlyDifferByTimestamp
  | ReqProposal _ _ => checkProposalsOnlyDifferByTimestamp
  end.

(** The error a request returns when its HRS check or its signing fails
    with [err]. *)
Definition req_error (req : request) (err : error) : error :=
  match req with
  | ReqVote _ _ => Fmt_v "Error signing vote: " err
  | ReqProposal _ _ => Fmt_v "Error signing proposal: " err
  end.

(** The message of the request with [sig] written into it. *)
Definition req_signed (sig : crypto.Signature) (req : request) : Signable :=
  match req with
  | ReqVote _ vote => SVote (Vote.with_Signature sig vote)
  | ReqProposal _ proposal => SProposal (Proposal.with_Signature sig proposal)
  end.

(** [SignVote] or [SignProposal], by the kind of the request. *)
Definition sign (req : request) : M St (Signable * option error) :=
  match req with
  | ReqVote chainID vote =>
      r <- SignVote chainID vote ;; ret (SVote (fst r), snd r)
  | ReqProposal chainID proposal =>
      r <- SignProposal chainID proposal ;; ret (SProposal (fst r), snd r)
  end.

(** What [sign] does with the answer of signBytesHRS. *)
Definition wrap (req : request) (res : crypto.Signature * option error)
    : Signable * option error :=
  match snd res with
  | Some err => (req_msg req, Some (req_error req err))
  | None => (req_signed (fst res) req, None)
  end.

(** The lexicographic order on (height, round, step). *)
Definition hrs_lt (a b : Z * Z * Z) : Prop :=
  let '(h1, r1, s1) := a in
  let '(h2, r2, s2) := b in
  h1 < h2 \/ (h1 = h2 /\ (r1 < r2 \/ (r1 = r2 /\ s1 < s2))).

Definition hrs_le (a b : Z * Z * Z) : Prop := hrs_lt a b \/ a = b.

(** The world after [WriteFileAtomic path data] succeeded. *)
Definition written (path : string) (data : list byte) (w : World) : World :=
  {| disk := <[path := data]> (disk w);
     trace := trace w ++ [EvWrite path data] |}.

(** Saving [pv] in world [w] goes through and writes [data]. *)
Definition store_ok (pv : PrivValidatorFS) (w : World) (data : list byte) : Prop :=
  filePath pv <> "" /\
  json_Marshal (bakPrivVal pv) = inr data /\
  WriteFileAtomic_err w (filePath pv) data = None.

(** The spec's data-model invariant of a SigningState: sign bytes are
    recorded exactly when a signature is. *)
Definition SigningState_invariant (pv : PrivValidatorFS) : Prop :=
  is_Some (LastSignBytes pv) <-> crypto.Empty (LastSignature pv) = false.

(** The operations a [PrivValidatorFS] exposes. *)
Inductive operation : Type :=
| OpSignVote (chainID : string) (vote : Vote.t)
| OpSignProposal (chainID : string) (proposal : Proposal.t)
| OpSignHeartbeat (chainID : string) (heartbeat : Heartbeat.t)
| OpSave
| OpReset
| OpModifyLastHeight (h : Z).

Definition exec (op : operation) : M St unit :=
  match op with
  | OpSignVote chainID vote => SignVote chainID vote ;; ret tt
  | OpSignProposal chainID proposal => SignProposal chainID proposal ;; ret tt
  | OpSignHeartbeat chainID heartbeat => SignHeartbeat chainID heartbeat ;; ret tt
  | OpSave => Save
  | OpReset => Reset
  | OpModifyLastHeight h => ModifyLastHeight h
  end.

(** The operations that sign or save, as opposed to the two that rewrite
    the record. *)
Definition signs_or_saves (op : operation) : bool :=
  match op with
  | OpReset | OpModifyLastHeight _ => false
  | _ => true
  end.

(** The state a sequence of operations leaves behind; a panic ends it. *)
Fixpoint exec_all (ops : list operation) (s : St) : St :=
  match ops with
  | [] => s
  | op :: ops' =>
      match exec op s with
      | (Ret _, s') => exec_all ops' s'
      | (_, s') => s'
      end
  end.

(** Signing a list of requests in order. *)
Fixpoint sign_all (reqs : list request) : M St (list (Signable * option error)) :=
  match reqs with
  | [] => ret []
  | req :: reqs' =>
      out <- sign req ;;
      outs <- sign_all reqs' ;;
      ret (out :: outs)
  end.

(** Requests whose HRS strictly increase, starting above [from]. *)
Fixpoint increasing_from (from : Z * Z * Z) (reqs : list request) : Prop :=
  match reqs with
  | [] => True
  | req :: reqs' =>
      match req_hrs req with
      | Some hrs => hrs_lt from hrs /\ increasing_from hrs reqs'
      | None => False
      end
  end.

End PrivValidator.

(** ** The rest of the file: start-up, accessors and the address order *)

(** [bytes.Compare]: 0, -1 or +1 by the lexicographic order of the bytes;
    a nil slice compares as an empty one. *)
Fixpoint bytes_Compare_list (a b : list byte) : Z :=
  match a, b with
  | [], [] => 0
  | [], _ :: _ => -1
  | _ :: _, [] => 1
  | x :: a', y :: b' =>
      match N.compare (Byte.to_N x) (Byte.to_N y) with
      | Lt => -1
      | Gt => 1
      | Eq => bytes_Compare_list a' b'
      end
  end.

Definition bytes_Compare (a b : GoBytes) : Z :=
  bytes_Compare_list (contents a) (contents b).

Definition GetAddress (pv : PrivValidatorFS) : GoBytes := Address pv.
Definition GetPubKey (pv : PrivValidatorFS) : crypto.PubKey := PubKey pv.
Definition GetPrikey (pv : PrivValidatorFS) : crypto.PrivKey := PrivKey pv.

(** [GetPrikeyFromConfigServer]: a stub that returns nil. *)
Definition GetPrikeyFromConfigServer : M St (option error) := ret None.

(** *** PrivValidatorsByAddress, the [sort.Interface] of a slice of
    validators; an index outside the slice panics. *)
Definition PrivValidatorsByAddress : Type := list PrivValidatorFS.

Definition index_out_of_range : string := "runtime error: index out of range".

Definition Len (pvs : PrivValidatorsByAddress) : Z :=
  Z.of_nat (length (pvs : list PrivValidatorFS)).

(** [pvs[i]]. *)
Definition at_index (i : Z) : M PrivValidatorsByAddress PrivValidatorFS :=
  fun pvs : list PrivValidatorFS =>
    if (0 <=? i) && (i <? Len pvs) then
      match pvs !! Z.to_nat i with
      | Some pv => (Ret pv, pvs)
      | None => (Panic index_out_of_range, pvs)
      end
    else (Panic index_out_of_range, pvs).

(** [pvs[i] = pv]. *)
Definition set_index (i : Z) (pv : PrivValidatorFS) : M PrivValidatorsByAddress unit :=
  fun pvs : list PrivValidatorFS =>
    if (0 <=? i) && (i <? Len pvs) then (Ret tt, <[Z.to_nat i := pv]> pvs)
    else (Panic index_out_of_range, pvs).

Definition Less (i j : Z) : M PrivValidatorsByAddress bool :=
  (pvi <- at_index i ;;
   pvj <- at_index j ;;
   ret (bytes_Compare (GetAddress pvi) (GetAddress pvj) =? -1))%go.

Definition Swap (i j : Z) : M PrivValidatorsByAddress unit :=
  (it <- at_index i ;;
   pvj <- at_index j ;;
   set_index i pvj ;;
   set_index j it)%go.

Section StartUp.
Context `{Ext : Externals}.
Local Open Scope go_scope.

(** A method call on [pv] from code that holds the world only. *)
Definition call {A} (pv : PrivValidatorFS) (m : M St A) : M World (A * PrivValidatorFS) :=
  fun w =>
    match m (pv, w) with
    | (Ret a, (pv', w')) => (Ret (a, pv'), w')
    | (Panic msg, (_, w')) => (Panic msg, w')
    | (Exit msg, (_, w')) => (Exit msg, w')
    end.

(** [os.Stat(filePath)] succeeds when the file is there. *)
Definition LoadOrGenPrivValidatorFS (path : string) : M World PrivValidatorFS :=
  w <- get ;;
  if bool_decide (is_Some (disk w !! path)) then LoadPrivValidatorFS path
  else
    let privVal := GenPrivValidatorFS path w in
    r <- call privVal Save ;;
    ret (snd r).

End StartUp.

(** ** Notions used to state the further properties *)

(** The messages the Signer was invoked on, oldest first. *)
Definition signer_calls (w : World) : list GoBytes :=
  omap (fun e => match e with EvSign msg => Some msg | _ => None end) (trace w).

Definition msg_Signature (msg : Signable) : crypto.Signature :=
  match msg with
  | SVote v => Vote.Signature v
  | SProposal p => Proposal.Signature p
  | SHeartbeat h => Heartbeat.Signature h
  end.


(** The exported fields with a JSON tag, the ones a file can carry. *)
Definition json_fields (pv : PrivValidatorFS) :
    GoBytes * crypto.PubKey * Z * Z * Z * crypto.Signature * GoBytes * crypto.PrivKey :=
  (Address pv, PubKey pv, LastHeight pv, LastRound pv, LastStep pv,
   LastSignature pv, LastSignBytes pv, PrivKey pv).

(** What a reader of the file gets once the address and the public key
    are derived again from the key found in it. *)
Definition reloaded `{Ext : Externals} (path : string) (signer : SignerT)
    (k : list byte) (pv : PrivValidatorFS) : PrivValidatorFS :=
  mkPV (Some (PubKey_Address (PrivKey_PubKey k))) (Some (PrivKey_PubKey k))
       (LastHeight pv) (LastRound pv) (LastStep pv) (LastSignature pv)
       (LastSignBytes pv) (Some k) signer path (Some k).

(** ** A small concrete environment

    One instance of the external collaborators, on which the statements
    below are evaluated: canonical bytes are the timestamp byte followed by
    kind, height, round, type and the chain identifier; the checkers blank
    the timestamp byte; the validator is serialised as its key followed by
    its last HRS; the file system never fails. *)
Module Toy.
Local Open Scope list_scope.

Definition byte_of (z : Z) : byte :=
  default x00 (Byte.of_N (Z.to_N (z mod 256))).

Definition canonical (chainID : string) (msg : Signable) : list byte :=
  match msg with
  | SVote v =>
      [byte_of (Vote.Timestamp v); x01; byte_of (Vote.Height v);
       byte_of (Vote.Round v); Vote.Type_ v]
  | SProposal p =>
      [byte_of (Proposal.Timestamp p); x02; byte_of (Proposal.Height p);
       byte_of (Proposal.Round p)]
  | SHeartbeat h => [x03; byte_of (Heartbeat.Height h); byte_of (Heartbeat.Round h)]
  end ++ list_byte_of_string chainID.

Definition decode (b : GoBytes) : error + list byte :=
  match b with
  | Some (ts :: body) => inr (ts :: body)
  | _ => inl "unexpected end of JSON input"
  end.

Definition blank (now : string) (l : list byte) : list byte :=
  match l with
  | _ :: body => byte_of (Z.of_nat (String.length now)) :: body
  | [] => []
  end.

Definition ext : Externals := {|
  VoteTypePrevote := x01;
  VoteTypePrecommit := x02;
  SignBytes := fun chainID msg => Some (canonical chainID msg);
  CanonicalJSONOnceVote := list byte;
  CanonicalJSONOnceProposal := list byte;
  CanonicalTime_Now := "2017-12-01T00:00:00.000Z";
  json_Unmarshal_vote := decode;
  json_Unmarshal_proposal := decode;
  set_Vote_Timestamp := blank;
  set_Proposal_Timestamp := blank;
  json_Marshal_vote := Some;
  json_Marshal_proposal := Some;
  json_Marshal := fun pv =>
    inr (contents (PrivKey pv)
         ++ [byte_of (LastHeight pv); byte_of (LastRound pv); byte_of (LastStep pv)]);
  json_Unmarshal := fun data =>
    inr (mkPV None None 0 0 0 None None (Some data) (fun _ _ => Panic "") "" None);
  WriteFileAtomic_err := fun _ _ _ => None;
  GenPrivKeyEd25519 := fun _ => [x2a];
  PrivKey_PubKey := fun k => k;
  PubKey_Address := fun k => k;
  PrivKey_Sign := fun k msg => Some (k ++ contents msg)
|}.

Definition prevote (h r ts : Z) : Vote.t :=
  {| Vote.Height := h; Vote.Round := r; Vote.Timestamp := ts;
     Vote.Type_ := x01; Vote.Signature := None |}.

Definition precommit (h r ts : Z) : Vote.t :=
  {| Vote.Height := h; Vote.Round := r; Vote.Timestamp := ts;
     Vote.Type_ := x02; Vote.Signature := None |}.

Definition proposal (h r ts : Z) : Proposal.t :=
  {| Proposal.Height := h; Proposal.Round := r; Proposal.Timestamp := ts;
     Proposal.Signature := None |}.

Definition heartbeat (h r : Z) : Heartbeat.t :=
  {| Heartbeat.Height := h; Heartbeat.Round := r; Heartbeat.Signature := None |}.

Definition w0 : World := {| disk := ∅; trace := [] |}.

(** A fresh validator. *)
Definition pv0 : PrivValidatorFS :=
  GenPrivValidatorFS (Ext := ext) "priv_validator.json" w0.

(** The validator and the world once it has signed a proposal at height 5,
    round 0 on chain-A. *)
Definition st5 : St :=
  Eval vm_compute in snd (sign (Ext := ext) (ReqProposal "chain-A" (proposal 5 0 7)) (pv0, w0)).
Definition pv5 : PrivValidatorFS := fst st5.
Definition w5 : World := snd st5.

(** The same validator after ModifyLastHeight(20). *)
Definition pv20 : PrivValidatorFS := set_last 20 0 3 None None pv5.

(** A validator whose Signer always fails. *)
Definition pv_broken : PrivValidatorFS :=
  mkPV (Address pv0) (PubKey pv0) 0 0 0 None None None
       (fun _ _ => Ret (None, Some "device unplugged"))
       (filePath pv0) (oldPrivKey pv0).

(** The signed validator with its live key cleared, as when an external
    Signer has taken over. *)
Definition pv_external : PrivValidatorFS := set_PrivKey None pv5.

(** The same environment with a decoder that undoes [json_Marshal] on
    validators that carry no signature. *)
Definition of_byte (b : byte) : Z := Z.of_N (Byte.to_N b).

Definition unmarshal (data : list byte) : error + PrivValidatorFS :=
  match rev data with
  | s :: r :: h :: key =>
      inr (mkPV (Some (rev key)) (Some (rev key)) (of_byte h) (of_byte r) (of_byte s)
                None None (Some (rev key)) (fun _ _ => Panic "") "" None)
  | _ => inl "unexpected end of JSON input"
  end.

Definition ext_codec : Externals := {|
  VoteTypePrevote := x01;
  VoteTypePrecommit := x02;
  SignBytes := fun chainID msg => Some (canonical chainID msg);
  CanonicalJSONOnceVote := list byte;
  CanonicalJSONOnceProposal := list byte;
  CanonicalTime_Now := "2017-12-01T00:00:00.000Z";
  json_Unmarshal_vote := decode;
  json_Unmarshal_proposal := decode;
  set_Vote_Timestamp := blank;
  set_Proposal_Timestamp := blank;
  json_Marshal_vote := Some;
  json_Marshal_proposal := Some;
  json_Marshal := fun pv =>
    inr (contents (PrivKey pv)
         ++ [byte_of (LastHeight pv); byte_of (LastRound pv); byte_of (LastStep pv)]);
  json_Unmarshal := unmarshal;
  WriteFileAtomic_err := fun _ _ _ => None;
  GenPrivKeyEd25519 := fun _ => [x2a];
  PrivKey_PubKey := fun k => k;
  PubKey_Address := fun k => k;
  PrivKey_Sign := fun k msg => Some (k ++ contents msg)
|}.

(** Three validators with the addresses "b", "a" and "ab". *)
Definition with_address (a : list byte) : PrivValidatorFS :=
  mkPV (Some a) (PubKey pv0) 0 0 0 None None (PrivKey pv0) (Signer pv0) "" None.

Definition three : PrivValidatorsByAddress :=
  [with_address [x62]; with_address [x61]; with_address [x61; x62]].

(** A validator whose recorded sign bytes do not decode. *)
Definition pv_garbled : PrivValidatorFS := set_last 5 0 1 (Some [x01]) (Some []) pv0.

(** A proposal, a prevote of an earlier height and the proposal again with
    another timestamp. *)
Definition reqs3 : list request :=
  [ReqProposal "chain-A" (proposal 5 0 7); ReqVote "chain-A" (prevote 3 0 0);
   ReqProposal "chain-A" (proposal 5 0 9)].

(** A validator fast-forwarded to height 20, in the environment with the
    decoder. *)
Definition pv20c : PrivValidatorFS :=
  set_last 20 0 3 None None (GenPrivValidatorFS (Ext := ext_codec) "priv_validator.json" w0).

End Toy.

(** ** Properties *)

Section Properties.
Context `{Ext : Externals}.

Ltac run :=
  unfold SignVote, SignProposal, SignHeartbeat, signBytesHRS, saveSigned, Sign,
    Reset, ModifyLastHeight, Save, save, WriteFileAtomic, checkHRS, voteToStep,
    lift, bind, ret, cmn.PanicSanity, cmn.PanicCrisis, panic, get_pv, modify_pv,
    get_world, modify_world;
  cbn [fst snd]; simpl.

Lemma hrs_lt_trans a b c : hrs_lt a b -> hrs_lt b c -> hrs_lt a c.
Proof.
  destruct a as [[h1 r1] s1], b as [[h2 r2] s2], c as [[h3 r3] s3].
  unfold hrs_lt. lia.
Qed.

Lemma hrs_le_refl a : hrs_le a a.
Proof. right. reflexivity. Qed.

Lemma hrs_le_trans a b c : hrs_le a b -> hrs_le b c -> hrs_le a c.
Proof.
  intros [Hab | ->] [Hbc | ->]; unfold hrs_le; eauto using hrs_lt_trans.
Qed.

(** *** checkHRS, case by case *)

Lemma checkHRS_height_regression pv w h r s :
  h < LastHeight pv ->
  checkHRS h r s (pv, w)
  = (Ret (false, Some "Height regression"), (pv, log (EvPrintf (LastHeight pv) h) w)).
Proof.
  intros Hh. run. destruct (Z.gtb_spec (LastHeight pv) h); [reflexivity | lia].
Qed.

Lemma checkHRS_round_regression pv w h r s :
  h = LastHeight pv -> r < LastRound pv ->
  checkHRS h r s (pv, w) = (Ret (false, Some "Round regression"), (pv, w)).
Proof.
  intros -> Hr. run. rewrite Z.gtb_ltb, Z.ltb_irrefl, Z.eqb_refl.
  destruct (Z.gtb_spec (LastRound pv) r); [reflexivity | lia].
Qed.

Lemma checkHRS_step_regression pv w h r s :
  h = LastHeight pv -> r = LastRound pv -> s < LastStep pv ->
  checkHRS h r s (pv, w) = (Ret (false, Some "Step regression"), (pv, w)).
Proof.
  intros -> -> Hs. run. rewrite !Z.gtb_ltb, !Z.ltb_irrefl, !Z.eqb_refl.
  destruct (Z.ltb_spec s (LastStep pv)); [reflexivity | lia].
Qed.

Lemma checkHRS_same pv w :
  checkHRS (LastHeight pv) (LastRound pv) (LastStep pv) (pv, w)
  = match LastSignBytes pv with
    | Some _ =>
        if crypto.Empty (LastSignature pv)
        then (Panic "privVal: LastSignature is nil but LastSignBytes is not!", (pv, w))
        else (Ret (true, None), (pv, w))
    | None => (Ret (false, Some "No LastSignature found"), (pv, w))
    end.
Proof.
  run. rewrite !Z.gtb_ltb, !Z.ltb_irrefl, !Z.eqb_refl.
  destruct (LastSignBytes pv); [destruct (crypto.Empty _) |]; reflexivity.
Qed.

Lemma checkHRS_ahead pv w h r s :
  hrs_lt (last_hrs pv) (h, r, s) ->
  checkHRS h r s (pv, w) = (Ret (false, None), (pv, w)).
Proof.
  unfold hrs_lt, last_hrs. intros H. run. rewrite !Z.gtb_ltb.
  destruct (Z.ltb_spec h (LastHeight pv)); [lia |].
  destruct (Z.eqb_spec (LastHeight pv) h); [| reflexivity].
  destruct (Z.ltb_spec r (LastRound pv)); [lia |].
  destruct (Z.eqb_spec (LastRound pv) r); [| reflexivity].
  destruct (Z.ltb_spec s (LastStep pv)); [lia |].
  destruct (Z.eqb_spec (LastStep pv) s); [lia | reflexivity].
Qed.

(** checkHRS never touches the validator, whatever it answers. *)
Lemma checkHRS_frame pv w h r s :
  fst (snd (checkHRS h r s (pv, w))) = pv /\
  disk (snd (snd (checkHRS h r s (pv, w)))) = disk w.
Proof.
  run. repeat (match goal with |- context [if ?b then _ else _] => destruct b end;
               simpl; try (split; reflexivity)).
Qed.

(** *** save *)

Lemma save_ok pv w data :
  store_ok pv w data ->
  save (pv, w) = (Ret tt, (pv, written (filePath pv) data w)).
Proof.
  intros (Hpath & Hjson & Hwrite). run.
  rewrite bool_decide_eq_false_2 by exact Hpath. rewrite Hjson.
  assert (Hfp : filePath (bakPrivVal pv) = filePath pv).
  { unfold bakPrivVal. destruct (negb _); reflexivity. }
  rewrite Hfp. cbn. rewrite Hwrite. reflexivity.
Qed.

(** save may panic, but it never changes the validator in memory. *)
Lemma save_frame pv w : fst (snd (save (pv, w))) = pv.
Proof.
  run. destruct (bool_decide _); [reflexivity |].
  destruct (json_Marshal _); [reflexivity |].
  destruct (WriteFileAtomic_err _ _ _); reflexivity.
Qed.

(** *** signBytesHRS and its two callers *)

Lemma sign_signBytesHRS req h r s st :
  req_hrs req = Some (h, r, s) ->
  sign req st
  = match signBytesHRS h r s (req_bytes req) (req_check req) st with
    | (Ret res, st') => (Ret (wrap req res), st')
    | (Panic msg, st') => (Panic msg, st')
    | (Exit msg, st') => (Exit msg, st')
    end.
Proof.
  destruct req as [chainID vote | chainID proposal]; simpl.
  - unfold SignVote, voteToStep, wrap.
    destruct (bool_decide (Vote.Type_ vote = VoteTypePrevote));
      [| destruct (bool_decide (Vote.Type_ vote = VoteTypePrecommit))];
      intros [= <- <- <-] || intros [=]; unfold bind at 1 2 3; unfold ret at 1; simpl;
      (destruct (signBytesHRS _ _ _ _ _ st) as [[[sig [err|]]| |] st']; reflexivity).
  - intros [= <- <- <-]. unfold SignProposal, wrap. unfold bind at 1 2.
    destruct (signBytesHRS _ _ _ _ _ st) as [[[sig [err|]]| |] st']; reflexivity.
Qed.

Lemma signBytesHRS_rejected h r s signBytes checkFn st st' err :
  checkHRS h r s st = (Ret (false, Some err), st') ->
  signBytesHRS h r s signBytes checkFn st = (Ret (None, Some err), st').
Proof. intros H. unfold signBytesHRS, bind at 1. rewrite H. reflexivity. Qed.

Lemma signBytesHRS_same pv w signBytes checkFn :
  is_Some (LastSignBytes pv) ->
  crypto.Empty (LastSignature pv) = false ->
  signBytesHRS (LastHeight pv) (LastRound pv) (LastStep pv) signBytes checkFn (pv, w)
  = if bytes_Equal signBytes (LastSignBytes pv)
    then (Ret (LastSignature pv, None), (pv, w))
    else match checkFn (LastSignBytes pv) signBytes with
         | Ret true => (Ret (LastSignature pv, None), (pv, w))
         | Ret false => (Ret (None, Some "Conflicting data"), (pv, w))
         | Panic msg => (Panic msg, (pv, w))
         | Exit msg => (Exit msg, (pv, w))
         end.
Proof.
  intros [lastBytes Hb] Hsig. unfold signBytesHRS, bind at 1.
  rewrite checkHRS_same, Hb, Hsig. run. rewrite Hb.
  destruct (bytes_Equal signBytes (Some lastBytes)); [reflexivity |].
  destruct (checkFn (Some lastBytes) signBytes) as [[|]| |]; reflexivity.
Qed.

Lemma signBytesHRS_ahead pv w h r s signBytes checkFn :
  hrs_lt (last_hrs pv) (h, r, s) ->
  signBytesHRS h r s signBytes checkFn (pv, w)
  = match Signer pv w signBytes with
    | Ret (sig, Some err) => (Ret (sig, Some err), (pv, log (EvSign signBytes) w))
    | Ret (sig, None) =>
        match save (set_last h r s sig signBytes pv, log (EvSign signBytes) w) with
        | (Ret _, st') => (Ret (sig, None), st')
        | (Panic msg, st') => (Panic msg, st')
        | (Exit msg, st') => (Exit msg, st')
        end
    | Panic msg => (Panic msg, (pv, log (EvSign signBytes) w))
    | Exit msg => (Exit msg, (pv, log (EvSign signBytes) w))
    end.
Proof.
  intros Hlt. unfold signBytesHRS, bind at 1. rewrite (checkHRS_ahead _ _ _ _ _ Hlt).
  cbn [fst snd]. unfold bind at 1. unfold Sign at 1. cbn [fst snd].
  destruct (Signer pv w signBytes) as [[sig [err|]]| |]; reflexivity.
Qed.

Lemma sign_rejected req h r s st st' err :
  req_hrs req = Some (h, r, s) ->
  checkHRS h r s st = (Ret (false, Some err), st') ->
  sign req st = (Ret (req_msg req, Some (req_error req err)), st').
Proof.
  intros Hhrs Hchk.
  rewrite (sign_signBytesHRS _ _ _ _ _ Hhrs), (signBytesHRS_rejected _ _ _ _ _ _ _ _ Hchk).
  reflexivity.
Qed.

Lemma sign_ReqVote chainID vote st vote' err st' :
  sign (ReqVote chainID vote) st = (Ret (SVote vote', err), st') ->
  SignVote chainID vote st = (Ret (vote', err), st').
Proof.
  simpl. unfold bind, ret.
  destruct (SignVote chainID vote st) as [[[v e]| |] st1]; cbn [fst snd];
    [| discriminate | discriminate].
  intros [= -> -> ->]. reflexivity.
Qed.

Lemma sign_ReqProposal chainID proposal st proposal' err st' :
  sign (ReqProposal chainID proposal) st = (Ret (SProposal proposal', err), st') ->
  SignProposal chainID proposal st = (Ret (proposal', err), st').
Proof.
  simpl. unfold bind, ret.
  destruct (SignProposal chainID proposal st) as [[[p e]| |] st1]; cbn [fst snd];
    [| discriminate | discriminate].
  intros [= -> -> ->]. reflexivity.
Qed.

(** *** The claims *)

(** C1. A vote or proposal request at the HRS of the record, whose canonical
    bytes are neither byte-identical to the recorded ones nor judged by the
    checker of its kind to differ from them only in the timestamp, fails with
    "Conflicting data" (ConflictingSignRequest): the message keeps its
    signature, the Signer is not invoked and nothing is written.  When no
    sign bytes are recorded at that HRS it fails with "No LastSignature found"
    (NoPriorSignature).  The record is a SigningState of the data model: sign
    bytes are recorded exactly when a signature is ([sign_same_HRS_corrupt]
    is the fatal case of a record that is not). *)
Theorem sign_same_HRS_conflict (req : request) (pv : PrivValidatorFS) (w : World) :
  req_hrs req = Some (last_hrs pv) ->
  (is_Some (LastSignBytes pv) ->
   SigningState_invariant pv ->
   bytes_Equal (req_bytes req) (LastSignBytes pv) = false ->
   req_check req (LastSignBytes pv) (req_bytes req) = Ret false ->
   sign req (pv, w)
   = (Ret (req_msg req, Some (req_error req "Conflicting data")), (pv, w)))
  /\
  (LastSignBytes pv = None ->
   sign req (pv, w)
   = (Ret (req_msg req, Some (req_error req "No LastSignature found")), (pv, w))).
Proof.
  intros Hhrs. rewrite (sign_signBytesHRS _ _ _ _ _ Hhrs). split.
  - intros Hsome Hinv Hneq Hchk. apply Hinv in Hsome as Hsig.
    rewrite signBytesHRS_same, Hneq, Hchk by assumption. reflexivity.
  - intros Hnone.
    erewrite signBytesHRS_rejected; [reflexivity |].
    rewrite checkHRS_same, Hnone. reflexivity.
Qed.

(** C2. A vote or proposal request behind the record fails with
    "Height regression", "Round regression" or "Step regression" according
    to the first component that is behind, and leaves the validator, and so
    its SigningState, as it was; nothing is signed or written (a height
    regression prints one line). *)
Theorem sign_regression (req : request) (pv : PrivValidatorFS) (w : World)
    (h r s : Z) :
  req_hrs req = Some (h, r, s) ->
  (h < LastHeight pv ->
   sign req (pv, w)
   = (Ret (req_msg req, Some (req_error req "Height regression")),
      (pv, log (EvPrintf (LastHeight pv) h) w)))
  /\
  (h = LastHeight pv -> r < LastRound pv ->
   sign req (pv, w)
   = (Ret (req_msg req, Some (req_error req "Round regression")), (pv, w)))
  /\
  (h = LastHeight pv -> r = LastRound pv -> s < LastStep pv ->
   sign req (pv, w)
   = (Ret (req_msg req, Some (req_error req "Step regression")), (pv, w))).
Proof.
  intros Hhrs. repeat split; intros; apply (sign_rejected _ _ _ _ _ _ _ Hhrs).
  - apply checkHRS_height_regression; assumption.
  - apply checkHRS_round_regression; assumption.
  - apply checkHRS_step_regression; assumption.
Qed.

(** C3. At an HRS already recorded as signed (sign bytes recorded, and with
    them a signature, as the data model has it), a vote or proposal request
    whose canonical bytes are byte-identical to the recorded ones, or that
    the checker of its kind judges to differ from them only in the timestamp,
    gets the recorded signature: the validator and the world are left exactly
    as they were, so the Signer is not invoked and nothing is written. *)
Theorem sign_same_HRS_replay (req : request) (pv : PrivValidatorFS) (w : World) :
  req_hrs req = Some (last_hrs pv) ->
  is_Some (LastSignBytes pv) ->
  SigningState_invariant pv ->
  bytes_Equal (req_bytes req) (LastSignBytes pv) = true \/
  req_check req (LastSignBytes pv) (req_bytes req) = Ret true ->
  sign req (pv, w) = (Ret (req_signed (LastSignature pv) req, None), (pv, w)).
Proof.
  intros Hhrs Hsome Hinv Hsame. apply Hinv in Hsome as Hsig.
  rewrite (sign_signBytesHRS _ _ _ _ _ Hhrs), signBytesHRS_same by assumption.
  destruct (bytes_Equal _ _); [reflexivity |].
  destruct Hsame as [[=] | ->]. reflexivity.
Qed.

(** A request ahead of the record, signed and stored. *)
Lemma sign_ahead req pv w h r s sig data :
  req_hrs req = Some (h, r, s) ->
  hrs_lt (last_hrs pv) (h, r, s) ->
  Signer pv w (req_bytes req) = Ret (sig, None) ->
  store_ok (set_last h r s sig (req_bytes req) pv) (log (EvSign (req_bytes req)) w) data ->
  sign req (pv, w)
  = (Ret (req_signed sig req, None),
     (set_last h r s sig (req_bytes req) pv,
      written (filePath pv) data (log (EvSign (req_bytes req)) w))).
Proof.
  intros Hhrs Hlt Hsign Hstore.
  rewrite (sign_signBytesHRS _ _ _ _ _ Hhrs), signBytesHRS_ahead, Hsign by assumption.
  rewrite (save_ok _ _ _ Hstore). reflexivity.
Qed.

Lemma sign_all_increasing reqs : forall pv w,
  increasing_from (last_hrs pv) reqs ->
  (forall req w', req ∈ reqs -> exists sig, Signer pv w' (req_bytes req) = Ret (sig, None)) ->
  (forall pv' w', filePath pv' = filePath pv -> exists data, store_ok pv' w' data) ->
  exists outs pv' w',
    sign_all reqs (pv, w) = (Ret outs, (pv', w')) /\
    Forall2 (fun req out => exists sig, out = (req_signed sig req, None)) reqs outs /\
    (forall req, last reqs = Some req ->
       exists hrs sig data,
         req_hrs req = Some hrs /\
         last outs = Some (req_signed sig req, None) /\
         SigningState pv' = (hrs, req_bytes req, sig) /\
         json_Marshal (bakPrivVal pv') = inr data /\
         disk w' !! filePath pv = Some data).
Proof.
  induction reqs as [| req reqs IH]; intros pv w Hinc Hsign Hstore.
  - exists [], pv, w. repeat split; [constructor | intros req [=]].
  - simpl in Hinc. destruct (req_hrs req) as [[[h r] s]|] eqn:Hhrs; [| contradiction].
    destruct Hinc as [Hlt Hinc].
    destruct (Hsign req w (list_elem_of_here _ _)) as [sig Hsig].
    set (pv1 := set_last h r s sig (req_bytes req) pv).
    destruct (Hstore pv1 (log (EvSign (req_bytes req)) w) eq_refl) as [data Hdata].
    pose proof (sign_ahead _ _ _ _ _ _ _ _ Hhrs Hlt Hsig Hdata) as Hstep.
    fold pv1 in Hstep.
    destruct (IH pv1 (written (filePath pv) data (log (EvSign (req_bytes req)) w)))
      as (outs & pv' & w' & Hrun & Hall & Hlast).
    { exact Hinc. }
    { intros req' w'' Hin. apply Hsign. apply list_elem_of_further, Hin. }
    { intros pv'' w'' Hfp. apply Hstore. exact Hfp. }
    exists ((req_signed sig req, None) :: outs), pv', w'. split; [| split].
    + simpl. unfold bind at 1. rewrite Hstep. unfold bind at 1. rewrite Hrun. reflexivity.
    + constructor; [exists sig; reflexivity | exact Hall].
    + intros req' Hreq'. destruct reqs as [| req2 reqs].
      * injection Hreq' as <-. inversion Hall; subst.
        simpl in Hrun. injection Hrun as <- <-.
        exists (h, r, s), sig, data. repeat split; try assumption.
        -- apply Hdata.
        -- simpl. apply lookup_insert_eq.
      * destruct (Hlast req' Hreq') as (hrs & sig' & data' & H1 & H2 & H3 & H4 & H5).
        exists hrs, sig', data'. repeat split; try assumption.
        inversion Hall; subst. exact H2.
Qed.

(** C4. A vote or proposal request ahead of the record, whose Signer call
    succeeds and whose save goes through, succeeds: the message carries the
    fresh signature, the record holds exactly the height, round, step and
    canonical bytes of the request and that signature, and the file holds
    the serialised new record when the call returns.  Over a list of
    requests with strictly increasing HRS every call succeeds and the record
    holds the values of the last one. *)
Theorem sign_ahead_commits :
  (forall (req : request) (pv : PrivValidatorFS) (w : World) (h r s : Z)
          (sig : crypto.Signature) (data : list byte),
     req_hrs req = Some (h, r, s) ->
     hrs_lt (last_hrs pv) (h, r, s) ->
     Signer pv w (req_bytes req) = Ret (sig, None) ->
     store_ok (set_last h r s sig (req_bytes req) pv)
              (log (EvSign (req_bytes req)) w) data ->
     exists pv' w',
       sign req (pv, w) = (Ret (req_signed sig req, None), (pv', w')) /\
       SigningState pv' = (h, r, s, req_bytes req, sig) /\
       json_Marshal (bakPrivVal pv') = inr data /\
       disk w' !! filePath pv = Some data)
  /\
  (forall (reqs : list request) (pv : PrivValidatorFS) (w : World),
     increasing_from (last_hrs pv) reqs ->
     (forall req w', req ∈ reqs ->
        exists sig, Signer pv w' (req_bytes req) = Ret (sig, None)) ->
     (forall pv' w', filePath pv' = filePath pv -> exists data, store_ok pv' w' data) ->
     exists outs pv' w',
       sign_all reqs (pv, w) = (Ret outs, (pv', w')) /\
       Forall2 (fun req out => exists sig, out = (req_signed sig req, None)) reqs outs /\
       (forall req, last reqs = Some req ->
          exists hrs sig data,
            req_hrs req = Some hrs /\
            last outs = Some (req_signed sig req, None) /\
            SigningState pv' = (hrs, req_bytes req, sig) /\
            json_Marshal (bakPrivVal pv') = inr data /\
            disk w' !! filePath pv = Some data)).
Proof.
  split.
  - intros req pv w h r s sig data Hhrs Hlt Hsig Hstore.
    eexists _, _. split; [apply (sign_ahead _ _ _ _ _ _ _ _ Hhrs Hlt Hsig Hstore) |].
    repeat split; [apply Hstore | apply lookup_insert_eq].
  - intros reqs pv w. apply sign_all_increasing.
Qed.

(** C5. When a sign call reaches the Signer (a vote or proposal request
    ahead of the record, or any heartbeat) and the Signer fails, the Signer's
    error comes back to the caller and the validator is exactly as before the
    call: nothing is committed and nothing is written, the world only records
    that the Signer was invoked. *)
Theorem sign_signer_error (pv : PrivValidatorFS) (w : World)
    (sig : crypto.Signature) (err : error) :
  (forall (req : request) (h r s : Z),
     req_hrs req = Some (h, r, s) ->
     hrs_lt (last_hrs pv) (h, r, s) ->
     Signer pv w (req_bytes req) = Ret (sig, Some err) ->
     sign req (pv, w)
     = (Ret (req_msg req, Some (req_error req err)),
        (pv, log (EvSign (req_bytes req)) w)))
  /\
  (forall (chainID : string) (heartbeat : Heartbeat.t),
     Signer pv w (SignBytes chainID (SHeartbeat heartbeat)) = Ret (sig, Some err) ->
     SignHeartbeat chainID heartbeat (pv, w)
     = (Ret (Heartbeat.with_Signature sig heartbeat, Some err),
        (pv, log (EvSign (SignBytes chainID (SHeartbeat heartbeat))) w))).
Proof.
  split.
  - intros req h r s Hhrs Hlt Hsign.
    rewrite (sign_signBytesHRS _ _ _ _ _ Hhrs), signBytesHRS_ahead, Hsign by assumption.
    reflexivity.
  - intros chainID heartbeat Hsign.
    unfold SignHeartbeat, bind, Sign, ret. cbn [fst snd]. rewrite Hsign. reflexivity.
Qed.

(** *** Monotonicity of the recorded HRS *)

Lemma hrs_trichotomy (a : Z * Z * Z) h r s :
  hrs_lt a (h, r, s) \/ a = (h, r, s) \/
  (h < a.1.1 \/ (h = a.1.1 /\ r < a.1.2) \/ (h = a.1.1 /\ r = a.1.2 /\ s < a.2)).
Proof.
  destruct a as [[h1 r1] s1]. unfold hrs_lt. cbn [fst snd].
  destruct (Z.lt_trichotomy h1 h) as [| [-> |]]; [lia | | lia].
  destruct (Z.lt_trichotomy r1 r) as [| [-> |]]; [lia | | lia].
  destruct (Z.lt_trichotomy s1 s) as [| [-> |]]; [lia | | lia].
  right. left. reflexivity.
Qed.

(** The only way signBytesHRS changes the validator: the request was ahead
    of the record, the Signer succeeded, and the record now holds the
    request and the fresh signature.  This holds for every answer, a panic
    of the save included. *)
Lemma signBytesHRS_final h r s signBytes checkFn pv w :
  let pv' := fst (snd (signBytesHRS h r s signBytes checkFn (pv, w))) in
  pv' = pv \/
  (hrs_lt (last_hrs pv) (h, r, s) /\
   exists sig, Signer pv w signBytes = Ret (sig, None) /\
               pv' = set_last h r s sig signBytes pv).
Proof.
  cbv zeta.
  destruct (hrs_trichotomy (last_hrs pv) h r s) as [Hlt | [Heq | Hgt]].
  - rewrite signBytesHRS_ahead by exact Hlt.
    destruct (Signer pv w signBytes) as [[sig [err|]]| |] eqn:Hsig;
      try (left; reflexivity).
    right. split; [exact Hlt |]. exists sig. split; [reflexivity |].
    pose proof (save_frame (set_last h r s sig signBytes pv) (log (EvSign signBytes) w)) as Hf.
    destruct (save _) as [[[]| |] st']; exact Hf.
  - left. injection Heq as <- <- <-. unfold signBytesHRS, bind at 1. rewrite checkHRS_same.
    destruct (LastSignBytes pv) as [lastBytes|] eqn:Hb; [| reflexivity].
    destruct (crypto.Empty (LastSignature pv)); [reflexivity |].
    cbn [fst snd]. unfold bind, get_pv, lift, ret. cbn [fst snd].
    destruct (bytes_Equal signBytes (LastSignBytes pv)); [reflexivity |].
    destruct (checkFn (LastSignBytes pv) signBytes) as [[|]| |]; reflexivity.
  - left. unfold last_hrs in Hgt. cbn [fst snd] in Hgt.
    destruct Hgt as [Hh | [[Hh Hr] | (Hh & Hr & Hs)]].
    + erewrite signBytesHRS_rejected by (apply checkHRS_height_regression; exact Hh).
      reflexivity.
    + erewrite signBytesHRS_rejected by (apply checkHRS_round_regression; assumption).
      reflexivity.
    + erewrite signBytesHRS_rejected by (apply checkHRS_step_regression; assumption).
      reflexivity.
Qed.

Lemma signBytesHRS_monotone h r s signBytes checkFn pv w :
  hrs_le (last_hrs pv)
         (last_hrs (fst (snd (signBytesHRS h r s signBytes checkFn (pv, w))))).
Proof.
  destruct (signBytesHRS_final h r s signBytes checkFn pv w) as [-> | (Hlt & sig & _ & ->)].
  - apply hrs_le_refl.
  - left. exact Hlt.
Qed.

(** The same for a vote or proposal request. *)
Lemma sign_final req pv w :
  let pv' := fst (snd (sign req (pv, w))) in
  pv' = pv \/
  exists h r s sig,
    req_hrs req = Some (h, r, s) /\ hrs_lt (last_hrs pv) (h, r, s) /\
    Signer pv w (req_bytes req) = Ret (sig, None) /\
    pv' = set_last h r s sig (req_bytes req) pv.
Proof.
  cbv zeta. destruct (req_hrs req) as [[[h r] s]|] eqn:Hhrs.
  - rewrite (sign_signBytesHRS _ _ _ _ _ Hhrs).
    destruct (signBytesHRS_final h r s (req_bytes req) (req_check req) pv w)
      as [Hsame | (Hlt & sig & Hsig & Hnew)].
    + left. destruct (signBytesHRS _ _ _ _ _ _) as [[res| |] st']; exact Hsame.
    + right. exists h, r, s, sig. repeat split; try assumption.
      destruct (signBytesHRS _ _ _ _ _ _) as [[res| |] st']; exact Hnew.
  - left. destruct req as [chainID vote | chainID proposal]; [| discriminate].
    simpl in Hhrs. simpl. unfold SignVote, voteToStep, bind at 1 2.
    destruct (bool_decide (Vote.Type_ vote = VoteTypePrevote)); [discriminate |].
    destruct (bool_decide (Vote.Type_ vote = VoteTypePrecommit)); [discriminate |].
    reflexivity.
Qed.

(** A request at the HRS of a record that has sign bytes but no signature
    panics: the data-model invariant is checked, not assumed, by checkHRS. *)
Lemma sign_same_HRS_corrupt req pv w :
  req_hrs req = Some (last_hrs pv) ->
  is_Some (LastSignBytes pv) ->
  crypto.Empty (LastSignature pv) = true ->
  sign req (pv, w)
  = (Panic "privVal: LastSignature is nil but LastSignBytes is not!", (pv, w)).
Proof.
  intros Hhrs [lastBytes Hb] Hsig. rewrite (sign_signBytesHRS _ _ _ _ _ Hhrs).
  unfold signBytesHRS, bind at 1. rewrite checkHRS_same, Hb, Hsig. reflexivity.
Qed.

(** Signing keeps the data-model invariant when the Signer never answers
    with an empty signature and the canonical bytes are not nil. *)
Lemma sign_preserves_invariant req pv w :
  SigningState_invariant pv ->
  (forall sig, Signer pv w (req_bytes req) = Ret (sig, None) -> crypto.Empty sig = false) ->
  is_Some (req_bytes req) ->
  SigningState_invariant (fst (snd (sign req (pv, w)))).
Proof.
  intros Hinv Hsigner Hbytes.
  destruct (sign_final req pv w) as [-> | (h & r & s & sig & _ & _ & Hsig & ->)];
    [exact Hinv |].
  unfold SigningState_invariant. simpl. split; intros _; [eauto | exact Hbytes].
Qed.

Lemma exec_monotone op pv w :
  signs_or_saves op = true ->
  hrs_le (last_hrs pv) (last_hrs (fst (snd (exec op (pv, w))))).
Proof.
  destruct op as [chainID vote | chainID proposal | chainID heartbeat | | |];
    intros [=]; simpl.
  - unfold SignVote, voteToStep.
    pose proof (fun step => signBytesHRS_monotone (Vote.Height vote) (Vote.Round vote) step
      (SignBytes chainID (SVote vote)) checkVotesOnlyDifferByTimestamp pv w) as Hm.
    destruct (bool_decide (Vote.Type_ vote = VoteTypePrevote));
      [| destruct (bool_decide (Vote.Type_ vote = VoteTypePrecommit))];
      try apply hrs_le_refl;
      unfold bind at 1 2 3; unfold ret at 1;
      [specialize (Hm stepPrevote) | specialize (Hm stepPrecommit)];
      destruct (signBytesHRS _ _ _ _ _ _) as [[[sig [err|]]| |] st']; exact Hm.
  - unfold SignProposal. unfold bind at 1 2.
    pose proof (signBytesHRS_monotone (Proposal.Height proposal) (Proposal.Round proposal)
      stepPropose (SignBytes chainID (SProposal proposal))
      checkProposalsOnlyDifferByTimestamp pv w) as Hm.
    destruct (signBytesHRS _ _ _ _ _ _) as [[[sig [err|]]| |] st']; exact Hm.
  - unfold SignHeartbeat, bind, Sign, ret. cbn [fst snd].
    destruct (Signer pv w _) as [[sig err]| |]; apply hrs_le_refl.
  - unfold Save. rewrite save_frame. apply hrs_le_refl.
Qed.

(** C6, as the code has it.  Under the operations that sign or save
    (SignVote, SignProposal, SignHeartbeat, Save), in any order and whatever
    they answer, the recorded (height, round, step) never moves backwards.
    Reset and ModifyLastHeight are the two operations that rewrite it. *)
Theorem signing_is_monotone (ops : list operation) (st : St) :
  forallb signs_or_saves ops = true ->
  hrs_le (last_hrs (fst st)) (last_hrs (fst (exec_all ops st))).
Proof.
  revert st. induction ops as [| op ops IH]; intros [pv w] Hops; simpl.
  - apply hrs_le_refl.
  - simpl in Hops. apply andb_prop in Hops as [Hop Hops].
    pose proof (exec_monotone op pv w Hop) as Hstep.
    destruct (exec op (pv, w)) as [[[]| |] st']; cbn [fst snd] in *; try exact Hstep.
    eapply hrs_le_trans; [exact Hstep | apply IH, Hops].
Qed.

(** *** ModifyLastHeight *)

(** C7. ModifyLastHeight(h), when its save goes through, leaves
    last_height = h, last_round = 0, last_step = 3 (precommit) and no
    signature or sign bytes, and the file holds that record.  A prevote at
    height h, round 0 then fails with "Step regression"; a proposal at height
    h+1, round 0 whose Signer call and save go through succeeds. *)
Theorem ModifyLastHeight_pins_step (h : Z) (pv : PrivValidatorFS) (w : World)
    (data : list byte) :
  store_ok (set_last h 0 3 None None pv) w data ->
  let pv1 := set_last h 0 stepPrecommit None None pv in
  let w1 := written (filePath pv) data w in
  ModifyLastHeight h (pv, w) = (Ret tt, (pv1, w1)) /\
  SigningState pv1 = (h, 0, stepPrecommit, None, None) /\
  json_Marshal (bakPrivVal pv1) = inr data /\
  disk w1 !! filePath pv = Some data /\
  (forall chainID vote,
     Vote.Type_ vote = VoteTypePrevote ->
     Vote.Height vote = h -> Vote.Round vote = 0 ->
     SignVote chainID vote (pv1, w1)
     = (Ret (vote, Some "Error signing vote: Step regression"), (pv1, w1))) /\
  (forall chainID proposal sig data',
     Proposal.Height proposal = h + 1 -> Proposal.Round proposal = 0 ->
     let signBytes := SignBytes chainID (SProposal proposal) in
     Signer pv1 w1 signBytes = Ret (sig, None) ->
     store_ok (set_last (h + 1) 0 stepPropose sig signBytes pv1)
              (log (EvSign signBytes) w1) data' ->
     SignProposal chainID proposal (pv1, w1)
     = (Ret (Proposal.with_Signature sig proposal, None),
        (set_last (h + 1) 0 stepPropose sig signBytes pv1,
         written (filePath pv) data' (log (EvSign signBytes) w1)))).
Proof.
  intros Hstore pv1 w1. subst pv1 w1.
  split; [| split; [| split; [| split; [| split]]]].
  - unfold ModifyLastHeight, Save, bind at 1. unfold modify_pv at 1. cbn [fst snd].
    rewrite (save_ok _ _ _ Hstore). reflexivity.
  - reflexivity.
  - apply Hstore.
  - apply lookup_insert_eq.
  - intros chainID vote Hty Hh Hr. apply sign_ReqVote.
    apply (sign_rejected (ReqVote chainID vote) h 0 stepPrevote).
    + simpl. rewrite bool_decide_eq_true_2 by exact Hty. rewrite Hh, Hr. reflexivity.
    + apply checkHRS_step_regression; [reflexivity | reflexivity |].
      simpl. unfold stepPrevote, stepPrecommit. lia.
  - intros chainID proposal sig data' Hh Hr signBytes Hsig Hstore'.
    apply sign_ReqProposal.
    assert (Hhrs : req_hrs (ReqProposal chainID proposal) = Some (h + 1, 0, stepPropose)).
    { simpl. rewrite Hh, Hr. reflexivity. }
    assert (Hlt : hrs_lt (last_hrs (set_last h 0 stepPrecommit None None pv))
                         (h + 1, 0, stepPropose)).
    { left. simpl. lia. }
    exact (sign_ahead _ _ _ _ _ _ _ _ Hhrs Hlt Hsig Hstore').
Qed.

(** *** Key escrow *)

Lemma GenPrivValidatorFS_oldPrivKey path w :
  oldPrivKey (GenPrivValidatorFS path w) = PrivKey (GenPrivValidatorFS path w) /\
  crypto.Empty (oldPrivKey (GenPrivValidatorFS path w)) = false.
Proof. split; reflexivity. Qed.

Lemma LoadPrivValidatorFSWithSigner_oldPrivKey path signerFunc w privVal w' :
  LoadPrivValidatorFSWithSigner path signerFunc w = (Ret privVal, w') ->
  oldPrivKey privVal = PrivKey privVal /\
  crypto.Empty (oldPrivKey privVal) = false /\
  filePath privVal = path.
Proof.
  unfold LoadPrivValidatorFSWithSigner, bind, get, cmn.Exit, exit, panic, ret.
  destruct (disk w !! path); [| discriminate].
  destruct (json_Unmarshal _) as [err | j]; [discriminate |].
  cbv zeta. cbn [PrivKey]. destruct (PrivKey j) eqn:Hk; [| discriminate].
  intros [= <- <-]. cbn. repeat split; reflexivity.
Qed.

(** C9. When the key captured at generation or load time ([oldPrivKey]) is
    not empty and the save goes through, the file holds the serialisation of
    the validator with that key in the place of its private key, whatever
    key the validator holds in memory; the validator in memory, its key
    field included, is the same after the save. *)
Theorem save_key_escrow (pv : PrivValidatorFS) (w : World) (data : list byte) :
  crypto.Empty (oldPrivKey pv) = false ->
  filePath pv <> "" ->
  json_Marshal (set_PrivKey (oldPrivKey pv) pv) = inr data ->
  WriteFileAtomic_err w (filePath pv) data = None ->
  exists w',
    save (pv, w) = (Ret tt, (pv, w')) /\
    disk w' !! filePath pv = Some data /\
    trace w' = (trace w ++ [EvWrite (filePath pv) data])%list.
Proof.
  intros Hold Hpath Hjson Hwrite.
  assert (Hbak : bakPrivVal pv = set_PrivKey (oldPrivKey pv) pv).
  { unfold bakPrivVal. rewrite Hold. reflexivity. }
  exists (written (filePath pv) data w). split; [| split].
  - apply save_ok. unfold store_ok. rewrite Hbak. auto.
  - apply lookup_insert_eq.
  - reflexivity.
Qed.

(** *** Heartbeats and votes of unknown type *)

(** C8. SignHeartbeat consults no part of the record: whatever the
    validator holds, it invokes the Signer once on the canonical bytes of the
    heartbeat and returns exactly what the Signer returned, so no regression
    or conflict error of the guard can come out of it; the validator is
    unchanged and the disk is not written. *)
Theorem SignHeartbeat_unguarded (chainID : string) (heartbeat : Heartbeat.t)
    (pv : PrivValidatorFS) (w : World) :
  let signBytes := SignBytes chainID (SHeartbeat heartbeat) in
  SignHeartbeat chainID heartbeat (pv, w)
  = (match Signer pv w signBytes with
     | Ret (sig, err) => Ret (Heartbeat.with_Signature sig heartbeat, err)
     | Panic msg => Panic msg
     | Exit msg => Exit msg
     end,
     (pv, log (EvSign signBytes) w))
  /\ disk (log (EvSign signBytes) w) = disk w.
Proof.
  intros signBytes. split; [| reflexivity].
  unfold SignHeartbeat, bind, Sign, ret. cbn [fst snd]. fold signBytes.
  destruct (Signer pv w signBytes) as [[sig err]| |]; reflexivity.
Qed.

(** C10. A vote that is neither a prevote nor a precommit makes SignVote
    panic in voteToStep: no error value is returned, and the validator and
    the world are untouched, so neither the HRS check nor the Signer ran. *)
Theorem SignVote_unknown_type_panics (chainID : string) (vote : Vote.t)
    (pv : PrivValidatorFS) (w : World) :
  Vote.Type_ vote <> VoteTypePrevote ->
  Vote.Type_ vote <> VoteTypePrecommit ->
  SignVote chainID vote (pv, w) = (Panic "Unknown vote type", (pv, w)).
Proof.
  intros Hpv Hpc. unfold SignVote, voteToStep, bind at 1.
  rewrite !bool_decide_eq_false_2 by assumption. reflexivity.
Qed.

End Properties.

(** ** The statements on the concrete environment *)

Section Instances.
Import Toy.
Local Existing Instance ext.

Lemma pv5_invariant : SigningState_invariant pv5.
Proof. split; intros _; [reflexivity | eexists; reflexivity]. Defined.

Lemma toy_store_ok (pv : PrivValidatorFS) (w : World) :
  filePath pv = "priv_validator.json" ->
  exists data, store_ok pv w data.
Proof.
  intros Hfp. eexists. split; [rewrite Hfp; discriminate | split; reflexivity].
Defined.

(** On chain-B the proposal of height 5, round 0 conflicts with the one
    signed on chain-A; a precommit at the HRS left by ModifyLastHeight(20)
    finds no sign bytes. *)
Lemma sign_same_HRS_conflict_witness :
  sign (ReqProposal "chain-B" (proposal 5 0 7)) (pv5, w5)
  = (Ret (SProposal (proposal 5 0 7),
          Some "Error signing proposal: Conflicting data"), (pv5, w5))
  /\
  sign (ReqVote "chain-A" (precommit 20 0 1)) (pv20, w5)
  = (Ret (SVote (precommit 20 0 1),
          Some "Error signing vote: No LastSignature found"), (pv20, w5)).
Proof.
  split.
  - apply (proj1 (sign_same_HRS_conflict (Ext := ext)
                    (ReqProposal "chain-B" (proposal 5 0 7)) pv5 w5 eq_refl)).
    + eexists; reflexivity.
    + exact pv5_invariant.
    + vm_compute; reflexivity.
    + vm_compute; reflexivity.
  - apply (proj2 (sign_same_HRS_conflict (Ext := ext)
                    (ReqVote "chain-A" (precommit 20 0 1)) pv20 w5 eq_refl)).
    reflexivity.
Defined.

(** Behind the proposal of height 5, round 0: a prevote at height 3; at
    round 2 of height 5, a prevote of round 1; after a precommit, a prevote
    of the same round. *)
Lemma sign_regression_witness :
  sign (ReqVote "chain-A" (prevote 3 0 9)) (pv5, w5)
  = (Ret (SVote (prevote 3 0 9), Some "Error signing vote: Height regression"),
     (pv5, log (EvPrintf 5 3) w5))
  /\
  sign (ReqVote "chain-A" (prevote 5 1 9)) (set_last 5 2 1 None None pv5, w5)
  = (Ret (SVote (prevote 5 1 9), Some "Error signing vote: Round regression"),
     (set_last 5 2 1 None None pv5, w5))
  /\
  sign (ReqVote "chain-A" (prevote 20 0 9)) (pv20, w5)
  = (Ret (SVote (prevote 20 0 9), Some "Error signing vote: Step regression"),
     (pv20, w5)).
Proof.
  split; [| split].
  - apply (proj1 (sign_regression (Ext := ext) (ReqVote "chain-A" (prevote 3 0 9)) pv5 w5
                    3 0 stepPrevote eq_refl)).
    vm_compute; reflexivity.
  - apply (proj1 (proj2 (sign_regression (Ext := ext) (ReqVote "chain-A" (prevote 5 1 9))
                           (set_last 5 2 1 None None pv5) w5 5 1 stepPrevote eq_refl)));
      [reflexivity | vm_compute; reflexivity].
  - apply (proj2 (proj2 (sign_regression (Ext := ext) (ReqVote "chain-A" (prevote 20 0 9))
                           pv20 w5 20 0 stepPrevote eq_refl)));
      [reflexivity | reflexivity | vm_compute; reflexivity].
Defined.

(** The proposal already signed, asked again as it was and asked again
    with another timestamp. *)
Lemma sign_same_HRS_replay_witness :
  sign (ReqProposal "chain-A" (proposal 5 0 7)) (pv5, w5)
  = (Ret (req_signed (LastSignature pv5) (ReqProposal "chain-A" (proposal 5 0 7)), None),
     (pv5, w5))
  /\
  bytes_Equal (req_bytes (ReqProposal "chain-A" (proposal 5 0 9))) (LastSignBytes pv5)
  = false
  /\
  sign (ReqProposal "chain-A" (proposal 5 0 9)) (pv5, w5)
  = (Ret (req_signed (LastSignature pv5) (ReqProposal "chain-A" (proposal 5 0 9)), None),
     (pv5, w5)).
Proof.
  split; [| split].
  - apply (sign_same_HRS_replay (Ext := ext) (ReqProposal "chain-A" (proposal 5 0 7)) pv5 w5 eq_refl).
    + eexists; reflexivity.
    + exact pv5_invariant.
    + left. vm_compute; reflexivity.
  - vm_compute; reflexivity.
  - apply (sign_same_HRS_replay (Ext := ext) (ReqProposal "chain-A" (proposal 5 0 9)) pv5 w5 eq_refl).
    + eexists; reflexivity.
    + exact pv5_invariant.
    + right. vm_compute; reflexivity.
Defined.

(** A fresh validator signs a proposal at height 5; and it signs, in
    order, a proposal, a prevote and a precommit of height 1 and a proposal
    of height 2. *)
Lemma sign_ahead_commits_witness :
  (exists pv' w',
     sign (ReqProposal "chain-A" (proposal 5 0 7)) (pv0, w0)
     = (Ret (req_signed (Some [x2a; x07; x02; x05; x00; x63; x68; x61; x69; x6e; x2d; x41])
                        (ReqProposal "chain-A" (proposal 5 0 7)), None), (pv', w')) /\
     SigningState pv'
     = (5, 0, stepPropose, req_bytes (ReqProposal "chain-A" (proposal 5 0 7)),
        Some [x2a; x07; x02; x05; x00; x63; x68; x61; x69; x6e; x2d; x41]) /\
     json_Marshal (bakPrivVal pv') = inr [x2a; x05; x00; x01] /\
     disk w' !! filePath pv0 = Some [x2a; x05; x00; x01])
  /\
  (let reqs := [ReqProposal "chain-A" (proposal 1 0 0); ReqVote "chain-A" (prevote 1 0 0);
                ReqVote "chain-A" (precommit 1 0 0); ReqProposal "chain-A" (proposal 2 0 0)] in
   exists outs pv' w',
     sign_all reqs (pv0, w0) = (Ret outs, (pv', w')) /\
     Forall2 (fun req out => exists sig, out = (req_signed sig req, None)) reqs outs /\
     (forall req, last reqs = Some req ->
        exists hrs sig data,
          req_hrs req = Some hrs /\
          last outs = Some (req_signed sig req, None) /\
          SigningState pv' = (hrs, req_bytes req, sig) /\
          json_Marshal (bakPrivVal pv') = inr data /\
          disk w' !! filePath pv0 = Some data)).
Proof.
  split.
  - apply (proj1 (sign_ahead_commits (Ext := ext)) (ReqProposal "chain-A" (proposal 5 0 7)) pv0 w0
             5 0 stepPropose).
    + reflexivity.
    + left. vm_compute; reflexivity.
    + reflexivity.
    + split; [discriminate | split; reflexivity].
  - apply (proj2 (sign_ahead_commits (Ext := ext))).
    + simpl. unfold hrs_lt, stepPropose, stepPrevote, stepPrecommit. simpl. lia.
    + intros req w' _. eexists; reflexivity.
    + intros pv' w' Hfp. apply toy_store_ok. exact Hfp.
Defined.

(** A validator whose Signer fails, asked for a prevote and for a
    heartbeat. *)
Lemma sign_signer_error_witness :
  sign (ReqVote "chain-A" (prevote 1 0 9)) (pv_broken, w0)
  = (Ret (SVote (prevote 1 0 9), Some "Error signing vote: device unplugged"),
     (pv_broken, log (EvSign (req_bytes (ReqVote "chain-A" (prevote 1 0 9)))) w0))
  /\
  SignHeartbeat "chain-A" (heartbeat 1 0) (pv_broken, w0)
  = (Ret (heartbeat 1 0, Some "device unplugged"),
     (pv_broken, log (EvSign (SignBytes "chain-A" (SHeartbeat (heartbeat 1 0)))) w0)).
Proof.
  split.
  - apply (proj1 (sign_signer_error (Ext := ext) pv_broken w0 None "device unplugged")
             (ReqVote "chain-A" (prevote 1 0 9)) 1 0 stepPrevote).
    + reflexivity.
    + left. vm_compute; reflexivity.
    + reflexivity.
  - apply (proj2 (sign_signer_error (Ext := ext) pv_broken w0 None "device unplugged")
             "chain-A" (heartbeat 1 0)).
    reflexivity.
Defined.

(** Reset after the proposal of height 5 puts the record back to (0, 0, 0),
    and ModifyLastHeight(2) puts it to (2, 0, 3): both are behind (5, 0, 1). *)
Lemma Reset_and_ModifyLastHeight_lower_the_HRS :
  last_hrs pv5 = (5, 0, 1) /\
  last_hrs (fst (snd (exec OpReset (pv5, w5)))) = (0, 0, 0) /\
  ~ hrs_le (5, 0, 1) (0, 0, 0) /\
  last_hrs (fst (snd (exec (OpModifyLastHeight 2) (pv5, w5)))) = (2, 0, 3) /\
  ~ hrs_le (5, 0, 1) (2, 0, 3).
Proof.
  split; [reflexivity | split; [vm_compute; reflexivity | split; [| split]]].
  - intros [H | H]; [unfold hrs_lt in H; lia | discriminate].
  - vm_compute; reflexivity.
  - intros [H | H]; [unfold hrs_lt in H; lia | discriminate].
Qed.

(** Five signing and saving operations, one of them a regression and one a
    replay, never move the record backwards. *)
Lemma signing_is_monotone_witness :
  let ops := [OpSignProposal "chain-A" (proposal 6 0 0); OpSignVote "chain-A" (prevote 3 0 0);
              OpSignHeartbeat "chain-A" (heartbeat 9 9); OpSave;
              OpSignProposal "chain-A" (proposal 6 0 1)] in
  forallb signs_or_saves ops = true /\
  hrs_le (last_hrs pv5) (last_hrs (fst (exec_all ops (pv5, w5)))).
Proof.
  intros ops. split; [reflexivity |].
  apply (signing_is_monotone (Ext := ext) ops (pv5, w5)). reflexivity.
Defined.

(** ModifyLastHeight(20) on the validator that signed at height 5, then a
    prevote at height 20 and a proposal at height 21. *)
Lemma ModifyLastHeight_pins_step_witness :
  let pv1 := set_last 20 0 stepPrecommit None None pv5 in
  let w1 := written (filePath pv5) [x2a; x14; x00; x03] w5 in
  let signBytes := SignBytes "chain-A" (SProposal (proposal 21 0 9)) in
  let sig := PrivKey_Sign [x2a] signBytes in
  store_ok (set_last 20 0 3 None None pv5) w5 [x2a; x14; x00; x03] /\
  ModifyLastHeight 20 (pv5, w5) = (Ret tt, (pv1, w1)) /\
  SignVote "chain-A" (prevote 20 0 9) (pv1, w1)
  = (Ret (prevote 20 0 9, Some "Error signing vote: Step regression"), (pv1, w1)) /\
  SignProposal "chain-A" (proposal 21 0 9) (pv1, w1)
  = (Ret (Proposal.with_Signature sig (proposal 21 0 9), None),
     (set_last 21 0 stepPropose sig signBytes pv1,
      written (filePath pv5) [x2a; x15; x00; x01] (log (EvSign signBytes) w1))).
Proof.
  intros pv1 w1 signBytes sig.
  assert (Hstore : store_ok (set_last 20 0 3 None None pv5) w5 [x2a; x14; x00; x03]).
  { split; [discriminate | split; reflexivity]. }
  destruct (ModifyLastHeight_pins_step (Ext := ext) 20 pv5 w5 _ Hstore)
    as (Hrun & _ & _ & _ & Hvote & Hprop).
  split; [exact Hstore | split; [exact Hrun | split]].
  - apply Hvote; reflexivity.
  - apply (Hprop "chain-A" (proposal 21 0 9) sig [x2a; x15; x00; x01]).
    + reflexivity.
    + reflexivity.
    + reflexivity.
    + split; [discriminate | split; reflexivity].
Defined.

(** The validator whose live key was cleared still saves the key it was
    generated with. *)
Lemma save_key_escrow_witness :
  PrivKey pv_external = None /\
  oldPrivKey pv_external = Some [x2a] /\
  exists w',
    save (pv_external, w5) = (Ret tt, (pv_external, w')) /\
    disk w' !! filePath pv_external = Some [x2a; x05; x00; x01] /\
    trace w' = (trace w5 ++ [EvWrite (filePath pv_external) [x2a; x05; x00; x01]])%list.
Proof.
  split; [reflexivity | split; [reflexivity |]].
  apply (save_key_escrow (Ext := ext) pv_external w5 [x2a; x05; x00; x01]).
  - reflexivity.
  - discriminate.
  - reflexivity.
  - reflexivity.
Defined.

(** A vote of type 7. *)
Lemma SignVote_unknown_type_panics_witness :
  SignVote "chain-A" (Vote.mk 6 0 0 x07 None) (pv5, w5) = (Panic "Unknown vote type", (pv5, w5)).
Proof.
  apply (SignVote_unknown_type_panics (Ext := ext) "chain-A" (Vote.mk 6 0 0 x07 None) pv5 w5);
    discriminate.
Defined.

End Instances.

(** ** Further properties of signing *)

Section Signing.
Context `{Ext : Externals}.

Lemma hrs_lt_irrefl a : ~ hrs_lt a a.
Proof. destruct a as [[h r] s]. unfold hrs_lt. lia. Qed.

Lemma msg_Signature_req_signed sig req : msg_Signature (req_signed sig req) = sig.
Proof. destruct req; reflexivity. Qed.

Lemma signer_calls_log_sign msg w :
  signer_calls (log (EvSign msg) w) = (signer_calls w ++ [msg])%list.
Proof. unfold signer_calls, log. simpl. rewrite omap_app. reflexivity. Qed.

Lemma signer_calls_log_printf a b w :
  signer_calls (log (EvPrintf a b) w) = signer_calls w.
Proof.
  unfold signer_calls, log. simpl. rewrite omap_app. simpl. apply app_nil_r.
Qed.

Lemma signer_calls_written path data w :
  signer_calls (written path data w) = signer_calls w.
Proof.
  unfold signer_calls, written. simpl. rewrite omap_app. simpl. apply app_nil_r.
Qed.

(** save writes at most the file and never invokes the Signer. *)
Lemma save_signer_calls pv w : signer_calls (snd (snd (save (pv, w)))) = signer_calls w.
Proof.
  unfold save, WriteFileAtomic, cmn.PanicSanity, cmn.PanicCrisis, bind, ret, panic,
    get_pv, get_world, modify_world. cbn [fst snd].
  destruct (bool_decide _); [reflexivity |].
  destruct (json_Marshal _); [reflexivity |]. cbn [fst snd].
  destruct (WriteFileAtomic_err _ _ _); [reflexivity |].
  cbn [fst snd]. apply (signer_calls_written _ _ w).
Qed.

(** signBytesHRS at the HRS of the record, every case. *)
Lemma signBytesHRS_at_record pv w signBytes checkFn :
  signBytesHRS (LastHeight pv) (LastRound pv) (LastStep pv) signBytes checkFn (pv, w)
  = (match LastSignBytes pv with
     | None => Ret (None, Some "No LastSignature found")
     | Some _ =>
         if crypto.Empty (LastSignature pv)
         then Panic "privVal: LastSignature is nil but LastSignBytes is not!"
         else if bytes_Equal signBytes (LastSignBytes pv) then Ret (LastSignature pv, None)
         else match checkFn (LastSignBytes pv) signBytes with
              | Ret true => Ret (LastSignature pv, None)
              | Ret false => Ret (None, Some "Conflicting data")
              | Panic msg => Panic msg
              | Exit msg => Exit msg
              end
     end, (pv, w)).
Proof.
  unfold signBytesHRS, bind at 1. rewrite checkHRS_same.
  destruct (LastSignBytes pv) as [lastBytes|] eqn:Hb; [| reflexivity].
  destruct (crypto.Empty (LastSignature pv)); [reflexivity |].
  cbn [fst snd]. unfold bind, get_pv, lift, ret. cbn [fst snd]. rewrite Hb.
  destruct (bytes_Equal signBytes (Some lastBytes)); [reflexivity |].
  destruct (checkFn (Some lastBytes) signBytes) as [[|]| |]; reflexivity.
Qed.

(** A vote of unknown type or a request that is not ahead of the record
    leaves the validator and the disk alone and does not invoke the Signer,
    whatever it answers. *)
Lemma sign_not_ahead req pv w :
  (forall hrs, req_hrs req = Some hrs -> ~ hrs_lt (last_hrs pv) hrs) ->
  fst (snd (sign req (pv, w))) = pv /\
  disk (snd (snd (sign req (pv, w)))) = disk w /\
  signer_calls (snd (snd (sign req (pv, w)))) = signer_calls w.
Proof.
  intros Hnot. destruct (req_hrs req) as [[[h r] s]|] eqn:Hhrs.
  - specialize (Hnot _ eq_refl). rewrite (sign_signBytesHRS _ _ _ _ _ Hhrs).
    destruct (hrs_trichotomy (last_hrs pv) h r s) as [Hlt | [Heq | Hgt]];
      [contradiction | |].
    + injection Heq as <- <- <-. rewrite signBytesHRS_at_record.
      destruct (LastSignBytes pv) as [lastBytes|]; [| repeat split; reflexivity].
      destruct (crypto.Empty (LastSignature pv)); [repeat split; reflexivity |].
      destruct (bytes_Equal (req_bytes req) (Some lastBytes));
        [repeat split; reflexivity |].
      destruct (req_check req (Some lastBytes) (req_bytes req)) as [[|]| |];
        repeat split; reflexivity.
    + unfold last_hrs in Hgt. cbn [fst snd] in Hgt.
      destruct Hgt as [Hh | [[Hh Hr] | (Hh & Hr & Hs)]].
      * erewrite signBytesHRS_rejected by (apply checkHRS_height_regression; exact Hh).
        cbn [fst snd]. repeat split; try reflexivity. apply signer_calls_log_printf.
      * erewrite signBytesHRS_rejected by (apply checkHRS_round_regression; assumption).
        repeat split; reflexivity.
      * erewrite signBytesHRS_rejected by (apply checkHRS_step_regression; assumption).
        repeat split; reflexivity.
  - destruct req as [chainID vote | chainID proposal]; [| discriminate].
    simpl in Hhrs. simpl. unfold SignVote, voteToStep, bind at 1 2.
    destruct (bool_decide (Vote.Type_ vote = VoteTypePrevote)); [discriminate |].
    destruct (bool_decide (Vote.Type_ vote = VoteTypePrecommit)); [discriminate |].
    repeat split; reflexivity.
Qed.

Lemma sign_ahead_signer_calls req pv w hrs :
  req_hrs req = Some hrs -> hrs_lt (last_hrs pv) hrs ->
  signer_calls (snd (snd (sign req (pv, w)))) = (signer_calls w ++ [req_bytes req])%list.
Proof.
  destruct hrs as [[h r] s]. intros Hhrs Hlt.
  rewrite (sign_signBytesHRS _ _ _ _ _ Hhrs), signBytesHRS_ahead by exact Hlt.
  destruct (Signer pv w (req_bytes req)) as [[sig [err|]]| |];
    try apply signer_calls_log_sign.
  pose proof (save_signer_calls (set_last h r s sig (req_bytes req) pv)
                (log (EvSign (req_bytes req)) w)) as Hs.
  rewrite signer_calls_log_sign in Hs.
  destruct (save _) as [[[]| |] st']; exact Hs.
Qed.

(** X1. SignVote and SignProposal invoke the Signer exactly when the request
    is ahead of the record, and then once, on the canonical bytes of the
    request.  A request that is not ahead (behind, at the same HRS, or a vote
    of unknown type) leaves the validator and the disk as they were and
    invokes nothing, whatever the call answers, a panic included. *)
Theorem Signer_invoked_iff_ahead (req : request) (pv : PrivValidatorFS) (w : World) :
  (forall hrs, req_hrs req = Some hrs -> hrs_lt (last_hrs pv) hrs ->
     signer_calls (snd (snd (sign req (pv, w))))
     = (signer_calls w ++ [req_bytes req])%list)
  /\
  ((forall hrs, req_hrs req = Some hrs -> ~ hrs_lt (last_hrs pv) hrs) ->
     fst (snd (sign req (pv, w))) = pv /\
     disk (snd (snd (sign req (pv, w)))) = disk w /\
     signer_calls (snd (snd (sign req (pv, w)))) = signer_calls w).
Proof.
  split.
  - intros hrs. apply sign_ahead_signer_calls.
  - apply sign_not_ahead.
Qed.

(** A call that succeeds is either a replay at the HRS of the record or a
    commit of a request ahead of it. *)
Lemma sign_success_cases req pv w out pv' w' :
  sign req (pv, w) = (Ret (out, None), (pv', w')) ->
  exists hrs,
    req_hrs req = Some hrs /\
    ((last_hrs pv = hrs /\ pv' = pv /\ out = req_signed (LastSignature pv) req) \/
     (hrs_lt (last_hrs pv) hrs /\
      exists sig, pv' = set_last hrs.1.1 hrs.1.2 hrs.2 sig (req_bytes req) pv /\
                  out = req_signed sig req)).
Proof.
  intros Hrun. destruct (req_hrs req) as [[[h r] s]|] eqn:Hhrs.
  - exists (h, r, s). split; [reflexivity |].
    rewrite (sign_signBytesHRS _ _ _ _ _ Hhrs) in Hrun.
    destruct (hrs_trichotomy (last_hrs pv) h r s) as [Hlt | [Heq | Hgt]].
    + right. split; [exact Hlt |]. rewrite signBytesHRS_ahead in Hrun by exact Hlt.
      destruct (Signer pv w (req_bytes req)) as [[sig [err|]]| |]; try discriminate.
      pose proof (save_frame (set_last h r s sig (req_bytes req) pv)
                    (log (EvSign (req_bytes req)) w)) as Hf.
      destruct (save _) as [[[]| |] st']; try discriminate.
      unfold wrap in Hrun. cbn [fst snd] in Hrun. injection Hrun as <- ->.
      exists sig. cbn [fst snd] in Hf. split; [exact Hf | reflexivity].
    + left. split; [exact Heq |]. injection Heq as <- <- <-.
      rewrite signBytesHRS_at_record in Hrun.
      destruct (LastSignBytes pv) as [lastBytes|]; [| discriminate].
      destruct (crypto.Empty (LastSignature pv)); [discriminate |].
      destruct (bytes_Equal (req_bytes req) (Some lastBytes)).
      * unfold wrap in Hrun. cbn [fst snd] in Hrun. injection Hrun as <- <- <-.
        split; reflexivity.
      * destruct (req_check req (Some lastBytes) (req_bytes req)) as [[|]| |];
          try discriminate.
        unfold wrap in Hrun. cbn [fst snd] in Hrun. injection Hrun as <- <- <-.
        split; reflexivity.
    + exfalso. unfold last_hrs in Hgt. cbn [fst snd] in Hgt.
      destruct Hgt as [Hh | [[Hh Hr] | (Hh & Hr & Hs)]].
      * erewrite signBytesHRS_rejected in Hrun
          by (apply checkHRS_height_regression; exact Hh). discriminate.
      * erewrite signBytesHRS_rejected in Hrun
          by (apply checkHRS_round_regression; assumption). discriminate.
      * erewrite signBytesHRS_rejected in Hrun
          by (apply checkHRS_step_regression; assumption). discriminate.
  - exfalso. destruct req as [chainID vote | chainID proposal]; [| discriminate].
    simpl in Hhrs, Hrun. unfold SignVote, voteToStep, bind at 1 2 in Hrun.
    destruct (bool_decide (Vote.Type_ vote = VoteTypePrevote)); [discriminate |].
    destruct (bool_decide (Vote.Type_ vote = VoteTypePrecommit)); discriminate.
Qed.

Lemma sign_success_record req pv w out pv' w' :
  sign req (pv, w) = (Ret (out, None), (pv', w')) ->
  exists hrs,
    req_hrs req = Some hrs /\ hrs_le (last_hrs pv) hrs /\
    last_hrs pv' = hrs /\ LastSignature pv' = msg_Signature out /\
    (last_hrs pv = hrs -> pv' = pv).
Proof.
  intros Hrun. destruct (sign_success_cases _ _ _ _ _ _ Hrun)
    as (hrs & Hhrs & [(Heq & -> & ->) | (Hlt & sig & -> & ->)]);
    exists hrs; rewrite msg_Signature_req_signed.
  - repeat split; try assumption; try reflexivity. right. exact Heq.
  - destruct hrs as [[h r] s]. repeat split; try assumption; try reflexivity.
    + left. exact Hlt.
    + intros Heq. rewrite Heq in Hlt. destruct (hrs_lt_irrefl _ Hlt).
Qed.

Lemma sign_step_order req pv w :
  fst (snd (sign req (pv, w))) = pv \/
  hrs_lt (last_hrs pv) (last_hrs (fst (snd (sign req (pv, w))))).
Proof.
  destruct (sign_final req pv w) as [H | (h & r & s & sig & _ & Hlt & _ & H)];
    [left; exact H | right; rewrite H; exact Hlt].
Qed.

Lemma sign_all_cons req reqs st outs st' :
  sign_all (req :: reqs) st = (Ret outs, st') ->
  exists out outs' st1,
    sign req st = (Ret out, st1) /\ sign_all reqs st1 = (Ret outs', st') /\
    outs = out :: outs'.
Proof.
  simpl. unfold bind at 1.
  destruct (sign req st) as [[out| |] st1] eqn:H1; try discriminate.
  unfold bind at 1.
  destruct (sign_all reqs st1) as [[outs'| |] st2] eqn:H2; try discriminate.
  unfold ret. intros [= <- <-]. exists out, outs', st1. repeat split; assumption.
Qed.

Lemma sign_all_order reqs : forall pv w outs pv' w',
  sign_all reqs (pv, w) = (Ret outs, (pv', w')) ->
  pv' = pv \/ hrs_lt (last_hrs pv) (last_hrs pv').
Proof.
  induction reqs as [| req reqs IH]; intros pv w outs pv' w' Hrun.
  - injection Hrun as _ <- _. left. reflexivity.
  - destruct (sign_all_cons _ _ _ _ _ Hrun) as (out & outs' & [pv1 w1] & H1 & Hrest & _).
    pose proof (sign_step_order req pv w) as Hstep. rewrite H1 in Hstep.
    cbn [fst snd] in Hstep.
    destruct (IH _ _ _ _ _ Hrest) as [-> | Hlt]; [exact Hstep |].
    right. destruct Hstep as [<- | Hlt1]; [exact Hlt | eapply hrs_lt_trans; eassumption].
Qed.

(** Within a run, a call can only succeed at or ahead of the record the
    run started from. *)
Lemma sign_all_success_not_behind reqs : forall pv w outs st' j req out hrs,
  sign_all reqs (pv, w) = (Ret outs, st') ->
  reqs !! j = Some req -> outs !! j = Some (out, None) ->
  req_hrs req = Some hrs ->
  hrs_le (last_hrs pv) hrs.
Proof.
  induction reqs as [| req0 reqs IH]; intros pv w outs st' j req out hrs Hrun Hreq Hout Hhrs.
  - destruct j; discriminate.
  - destruct (sign_all_cons _ _ _ _ _ Hrun) as (out0 & outs' & [pv1 w1] & H1 & Hrest & ->).
    destruct j as [| j]; simpl in Hreq, Hout.
    + injection Hreq as ->. injection Hout as ->.
      destruct (sign_success_record _ _ _ _ _ _ H1) as (hrs' & Hhrs' & Hle & _).
      congruence.
    + pose proof (IH _ _ _ _ _ _ _ _ Hrest Hreq Hout Hhrs) as Hle.
      pose proof (sign_step_order req0 pv w) as Hstep. rewrite H1 in Hstep.
      cbn [fst snd] in Hstep. destruct Hstep as [<- | Hlt]; [exact Hle |].
      eapply hrs_le_trans; [left; exact Hlt | exact Hle].
Qed.

(** Within a run, a call that succeeds at the HRS the run started from
    returns the signature recorded at the start. *)
Lemma sign_all_success_at_record reqs : forall pv w outs st' j req out,
  sign_all reqs (pv, w) = (Ret outs, st') ->
  reqs !! j = Some req -> outs !! j = Some (out, None) ->
  req_hrs req = Some (last_hrs pv) ->
  msg_Signature out = LastSignature pv.
Proof.
  induction reqs as [| req0 reqs IH]; intros pv w outs st' j req out Hrun Hreq Hout Hhrs.
  - destruct j; discriminate.
  - destruct (sign_all_cons _ _ _ _ _ Hrun) as (out0 & outs' & [pv1 w1] & H1 & Hrest & ->).
    destruct j as [| j]; simpl in Hreq, Hout.
    + injection Hreq as ->. injection Hout as ->.
      destruct (sign_success_record _ _ _ _ _ _ H1) as (hrs' & Hhrs' & _ & _ & Hsig & Hsame).
      rewrite <- Hsig. rewrite Hsame by congruence. reflexivity.
    + pose proof (sign_step_order req0 pv w) as Hstep. rewrite H1 in Hstep.
      cbn [fst snd] in Hstep. destruct Hstep as [-> | Hlt].
      * exact (IH _ _ _ _ _ _ _ Hrest Hreq Hout Hhrs).
      * exfalso.
        pose proof (sign_all_success_not_behind _ _ _ _ _ _ _ _ _ Hrest Hreq Hout Hhrs)
          as [Hlt' | Heq].
        -- exact (hrs_lt_irrefl _ (hrs_lt_trans _ _ _ Hlt Hlt')).
        -- rewrite Heq in Hlt. exact (hrs_lt_irrefl _ Hlt).
Qed.

Lemma sign_all_no_double_sign_le reqs : forall pv w outs st' i j reqi reqj outi outj,
  (i <= j)%nat ->
  sign_all reqs (pv, w) = (Ret outs, st') ->
  reqs !! i = Some reqi -> reqs !! j = Some reqj ->
  outs !! i = Some (outi, None) -> outs !! j = Some (outj, None) ->
  req_hrs reqi = req_hrs reqj ->
  msg_Signature outi = msg_Signature outj.
Proof.
  induction reqs as [| req0 reqs IH];
    intros pv w outs st' i j reqi reqj outi outj Hij Hrun Hri Hrj Hoi Hoj Hsame.
  - destruct i; discriminate.
  - destruct (sign_all_cons _ _ _ _ _ Hrun) as (out0 & outs' & [pv1 w1] & H1 & Hrest & ->).
    destruct i as [| i]; simpl in Hri, Hoi.
    + injection Hri as ->. injection Hoi as ->.
      destruct j as [| j]; simpl in Hrj, Hoj.
      * congruence.
      * destruct (sign_success_record _ _ _ _ _ _ H1) as (hrs & Hhrs & _ & Hlast & Hsig & _).
        rewrite <- Hsig. symmetry.
        apply (sign_all_success_at_record _ _ _ _ _ _ _ _ Hrest Hrj Hoj).
        congruence.
    + destruct j as [| j]; [lia |]. simpl in Hrj, Hoj.
      apply (IH _ _ _ _ i j reqi reqj outi outj ltac:(lia) Hrest Hri Hrj Hoi Hoj Hsame).
Qed.

(** X2. No double signing.  In a run of SignVote and SignProposal calls, two
    calls for the same height, round and step that both succeed hand out the
    same signature, whatever was asked in between. *)
Theorem no_double_sign (reqs : list request) (pv : PrivValidatorFS) (w : World)
    (outs : list (Signable * option error)) (st' : St) (i j : nat)
    (reqi reqj : request) (outi outj : Signable) :
  sign_all reqs (pv, w) = (Ret outs, st') ->
  reqs !! i = Some reqi -> reqs !! j = Some reqj ->
  outs !! i = Some (outi, None) -> outs !! j = Some (outj, None) ->
  req_hrs reqi = req_hrs reqj ->
  msg_Signature outi = msg_Signature outj.
Proof.
  intros Hrun Hri Hrj Hoi Hoj Hsame.
  destruct (Nat.le_ge_cases i j) as [Hij | Hji].
  - exact (sign_all_no_double_sign_le _ _ _ _ _ _ _ _ _ _ _ Hij Hrun Hri Hrj Hoi Hoj Hsame).
  - symmetry.
    exact (sign_all_no_double_sign_le _ _ _ _ _ _ _ _ _ _ _ Hji Hrun Hrj Hri Hoj Hoi
             (eq_sym Hsame)).
Qed.

Lemma bytes_Equal_refl b : bytes_Equal b b = true.
Proof. unfold bytes_Equal. apply bool_decide_eq_true_2. reflexivity. Qed.

(** X3. Signing is idempotent.  Once a request ahead of the record has been
    signed and saved, with a signature that is not empty over bytes that are
    not nil, asking for it again gives the same signed message and changes
    nothing: the validator, the disk and the trace stay as the first call
    left them. *)
Theorem sign_twice (req : request) (pv : PrivValidatorFS) (w : World) (h r s : Z)
    (sig : crypto.Signature) (data : list byte) :
  req_hrs req = Some (h, r, s) ->
  hrs_lt (last_hrs pv) (h, r, s) ->
  Signer pv w (req_bytes req) = Ret (sig, None) ->
  crypto.Empty sig = false ->
  is_Some (req_bytes req) ->
  store_ok (set_last h r s sig (req_bytes req) pv) (log (EvSign (req_bytes req)) w) data ->
  sign req (pv, w) = (Ret (req_signed sig req, None), snd (sign req (pv, w))) /\
  sign req (snd (sign req (pv, w)))
  = (Ret (req_signed sig req, None), snd (sign req (pv, w))).
Proof.
  intros Hhrs Hlt Hsig Hne [b Hb] Hstore.
  rewrite (sign_ahead _ _ _ _ _ _ _ _ Hhrs Hlt Hsig Hstore). cbn [snd].
  split; [reflexivity |].
  assert (Hhrs' : req_hrs req = Some (last_hrs (set_last h r s sig (req_bytes req) pv)))
    by exact Hhrs.
  rewrite (sign_signBytesHRS _ _ _ _ _ Hhrs').
  rewrite signBytesHRS_at_record. cbn [LastSignBytes LastSignature set_last].
  rewrite Hb, Hne. rewrite <- Hb, bytes_Equal_refl. reflexivity.
Qed.

End Signing.

(** ** Further properties of the operations *)

Section Operations.
Context `{Ext : Externals}.

Lemma bind_ret_state {S A B} (m : M S A) (f : A -> B) (st : S) :
  snd (bind m (fun a => ret (f a)) st) = snd (m st).
Proof. unfold bind, ret. destruct (m st) as [[a| |] st']; reflexivity. Qed.

Lemma exec_sign_vote chainID vote st :
  snd (exec (OpSignVote chainID vote) st) = snd (sign (ReqVote chainID vote) st).
Proof.
  simpl. rewrite (bind_ret_state (SignVote chainID vote) (fun _ => tt)).
  rewrite (bind_ret_state (SignVote chainID vote) (fun r => (SVote (fst r), snd r))).
  reflexivity.
Qed.

Lemma exec_sign_proposal chainID proposal st :
  snd (exec (OpSignProposal chainID proposal) st)
  = snd (sign (ReqProposal chainID proposal) st).
Proof.
  simpl. rewrite (bind_ret_state (SignProposal chainID proposal) (fun _ => tt)).
  rewrite (bind_ret_state (SignProposal chainID proposal)
             (fun r => (SProposal (fst r), snd r))).
  reflexivity.
Qed.

(** Every operation leaves the validator as it was or rewrites its five
    Last* fields: with no signature and no bytes (Reset, ModifyLastHeight),
    or with canonical bytes and a signature the Signer returned for them. *)
Lemma exec_final op pv w :
  let pv' := fst (snd (exec op (pv, w))) in
  pv' = pv \/
  (exists h r s, pv' = set_last h r s None None pv) \/
  (exists h r s sig chainID msg,
     Signer pv w (SignBytes chainID msg) = Ret (sig, None) /\
     pv' = set_last h r s sig (SignBytes chainID msg) pv).
Proof.
  cbv zeta. destruct op as [chainID vote | chainID proposal | chainID heartbeat | | | h].
  - rewrite exec_sign_vote.
    destruct (sign_final (ReqVote chainID vote) pv w)
      as [H | (h & r & s & sig & _ & _ & Hsig & H)]; [left; exact H |].
    right. right. exists h, r, s, sig, chainID, (SVote vote). split; assumption.
  - rewrite exec_sign_proposal.
    destruct (sign_final (ReqProposal chainID proposal) pv w)
      as [H | (h & r & s & sig & _ & _ & Hsig & H)]; [left; exact H |].
    right. right. exists h, r, s, sig, chainID, (SProposal proposal). split; assumption.
  - left. simpl. unfold SignHeartbeat, bind, Sign, ret. cbn [fst snd].
    destruct (Signer pv w _) as [[sig err]| |]; reflexivity.
  - left. apply save_frame.
  - right. left. exists 0, 0, 0. simpl. unfold Reset, Save, bind, modify_pv. cbn [fst snd].
    pose proof (save_frame (set_last 0 0 0 None None pv) w) as Hf.
    destruct (save _) as [[[]| |] st']; exact Hf.
  - right. left. exists h, 0, 3. simpl. unfold ModifyLastHeight, Save, bind, modify_pv.
    cbn [fst snd]. pose proof (save_frame (set_last h 0 3 None None pv) w) as Hf.
    destruct (save _) as [[[]| |] st']; exact Hf.
Qed.

Lemma exec_all_cons op ops st :
  exec_all (op :: ops) st = exec_all ops (snd (exec op st)) \/
  exec_all (op :: ops) st = snd (exec op st).
Proof. simpl. destruct (exec op st) as [[[]| |] st']; auto. Qed.

(** X4. No operation, in any order and whatever it answers, changes the
    address, the keys, the Signer or the file path of a validator: signing,
    saving, Reset and ModifyLastHeight write the five Last* fields only. *)
Theorem operations_keep_identity (ops : list operation) (st : St) :
  let pv := fst st in
  let pv' := fst (exec_all ops st) in
  Address pv' = Address pv /\ PubKey pv' = PubKey pv /\ PrivKey pv' = PrivKey pv /\
  oldPrivKey pv' = oldPrivKey pv /\ filePath pv' = filePath pv /\
  Signer pv' = Signer pv.
Proof.
  cbv zeta. revert st. induction ops as [| op ops IH]; intros [pv w].
  - repeat split; reflexivity.
  - assert (Hstep : let pv1 := fst (snd (exec op (pv, w))) in
              Address pv1 = Address pv /\ PubKey pv1 = PubKey pv /\
              PrivKey pv1 = PrivKey pv /\ oldPrivKey pv1 = oldPrivKey pv /\
              filePath pv1 = filePath pv /\ Signer pv1 = Signer pv).
    { cbv zeta.
      destruct (exec_final op pv w)
        as [-> | [(h & r & s & ->) | (h & r & s & sig & c & m & _ & ->)]];
        repeat split; reflexivity. }
    cbv zeta in Hstep. cbn [fst].
    destruct (exec_all_cons op ops (pv, w)) as [-> | ->]; [| exact Hstep].
    destruct (snd (exec op (pv, w))) as [pv1 w1] eqn:Hst. cbn [fst] in *.
    specialize (IH (pv1, w1)). cbn [fst] in IH.
    destruct IH as (H1 & H2 & H3 & H4 & H5 & H6).
    destruct Hstep as (G1 & G2 & G3 & G4 & G5 & G6).
    repeat split; congruence.
Qed.

(** X5. The data-model invariant (sign bytes recorded exactly when a
    signature is) is kept by every sequence of operations, provided the
    Signer never answers success with an empty signature and the canonical
    encoder never returns nil. *)
Theorem operations_keep_invariant (ops : list operation) (st : St) :
  SigningState_invariant (fst st) ->
  (forall w msg sig, Signer (fst st) w msg = Ret (sig, None) -> crypto.Empty sig = false) ->
  (forall chainID msg, is_Some (SignBytes chainID msg)) ->
  SigningState_invariant (fst (exec_all ops st)).
Proof.
  revert st. induction ops as [| op ops IH]; intros [pv w] Hinv Hsigner Hbytes.
  - exact Hinv.
  - cbn [fst] in *.
    assert (Hstep : SigningState_invariant (fst (snd (exec op (pv, w)))) /\
                    Signer (fst (snd (exec op (pv, w)))) = Signer pv).
    { destruct (exec_final op pv w)
        as [-> | [(h & r & s & ->) | (h & r & s & sig & c & m & Hsig & ->)]].
      - split; [exact Hinv | reflexivity].
      - split; [| reflexivity]. unfold SigningState_invariant. simpl.
        split; [intros [x [=]] | intros [=]].
      - split; [| reflexivity]. unfold SigningState_invariant. simpl.
        split; intros _; [exact (Hsigner _ _ _ Hsig) | apply Hbytes]. }
    destruct Hstep as [Hinv1 Hsame].
    destruct (exec_all_cons op ops (pv, w)) as [-> | ->]; [| exact Hinv1].
    destruct (snd (exec op (pv, w))) as [pv1 w1]. cbn [fst] in *.
    apply (IH (pv1, w1)); cbn [fst]; [exact Hinv1 | | exact Hbytes].
    rewrite Hsame. exact Hsigner.
Qed.

(** X6. Reset is idempotent: a second Reset leaves the validator in memory as
    the first one did, and when the first one returned, the file is the same
    after the second. *)
Theorem Reset_idempotent (pv : PrivValidatorFS) (w : World) :
  let st1 := snd (Reset (pv, w)) in
  let st2 := snd (Reset st1) in
  fst st2 = fst st1 /\
  SigningState (fst st1) = (0, 0, 0, None, None) /\
  (fst (Reset (pv, w)) = Ret tt -> disk (snd st2) = disk (snd st1)).
Proof.
  cbv zeta.
  assert (Hreset : forall pv0 w0,
            Reset (pv0, w0) = save (set_last 0 0 0 None None pv0, w0)).
  { intros pv0 w0. unfold Reset, Save, bind, modify_pv. cbn [fst snd].
    destruct (save _) as [[[]| |] st']; reflexivity. }
  rewrite Hreset.
  pose proof (save_frame (set_last 0 0 0 None None pv) w) as Hf1.
  destruct (save (set_last 0 0 0 None None pv, w)) as [r1 [pv1 w1]] eqn:Hs1.
  cbn [fst snd] in *. subst pv1. rewrite Hreset.
  assert (Hsame : set_last 0 0 0 None None (set_last 0 0 0 None None pv)
                  = set_last 0 0 0 None None pv) by reflexivity.
  rewrite Hsame.
  pose proof (save_frame (set_last 0 0 0 None None pv) w1) as Hf2.
  split; [exact Hf2 | split; [reflexivity |]].
  intros ->. revert Hs1. clear Hf2.
  unfold save, WriteFileAtomic, cmn.PanicSanity, cmn.PanicCrisis, bind, ret, panic,
    get_pv, get_world, modify_world. cbn [fst snd].
  destruct (bool_decide _); [discriminate |].
  destruct (json_Marshal _) as [err | data]; [discriminate |]. cbn [fst snd].
  destruct (WriteFileAtomic_err w _ data); [discriminate |]. cbn [fst snd].
  intros [= <-].
  destruct (WriteFileAtomic_err _ _ data); cbn [fst snd]; [reflexivity |].
  simpl. apply insert_insert_eq.
Qed.

End Operations.

(** ** Further properties: fast-forward, reset and the first signature *)

Section Record.
Context `{Ext : Externals}.

Lemma req_hrs_step req h r s :
  req_hrs req = Some (h, r, s) -> 1 <= s <= 3.
Proof.
  destruct req as [chainID vote | chainID proposal]; simpl.
  - destruct (bool_decide _); [intros [= _ _ <-]; unfold stepPrevote; lia |].
    destruct (bool_decide _); [intros [= _ _ <-]; unfold stepPrecommit; lia |].
    discriminate.
  - intros [= _ _ <-]. unfold stepPropose. lia.
Qed.


Lemma Reset_state pv w :
  fst (snd (Reset (pv, w))) = set_last 0 0 0 None None pv.
Proof.
  unfold Reset, Save, bind, modify_pv. cbn [fst snd].
  pose proof (save_frame (set_last 0 0 0 None None pv) w) as Hf.
  destruct (save _) as [[[]| |] st']; exact Hf.
Qed.


(** X8. Reset forgets what was signed: after it, whether or not its save
    went through, every vote or proposal with a height and a round that are
    not negative reaches the Signer, also one that conflicts with a message
    signed before the Reset. *)
Theorem Reset_forgets (pv : PrivValidatorFS) (w : World) (req : request) (h r s : Z) :
  req_hrs req = Some (h, r, s) ->
  0 <= h -> 0 <= r ->
  let st1 := snd (Reset (pv, w)) in
  signer_calls (snd (snd (sign req st1))) = (signer_calls (snd st1) ++ [req_bytes req])%list.
Proof.
  intros Hhrs Hh Hr st1. subst st1.
  pose proof (Reset_state pv w) as Hst.
  destruct (snd (Reset (pv, w))) as [pv1 w1]. cbn [fst snd] in *. subst pv1.
  pose proof (req_hrs_step _ _ _ _ Hhrs) as Hs.
  apply (sign_ahead_signer_calls _ _ _ _ Hhrs).
  unfold hrs_lt, last_hrs. simpl. lia.
Qed.

(** X9. The first signature of a generated validator: with a file path that
    is set and a save that goes through, any vote or proposal with a height
    and a round that are not negative is signed with the generated key, and
    the record holds it. *)
Theorem GenPrivValidatorFS_first_sign (path : string) (w0 w : World) (req : request)
    (h r s : Z) (data : list byte) :
  let pv := GenPrivValidatorFS path w0 in
  let sig := PrivKey_Sign (GenPrivKeyEd25519 w0) (req_bytes req) in
  req_hrs req = Some (h, r, s) ->
  0 <= h -> 0 <= r ->
  store_ok (set_last h r s sig (req_bytes req) pv) (log (EvSign (req_bytes req)) w) data ->
  sign req (pv, w)
  = (Ret (req_signed sig req, None),
     (set_last h r s sig (req_bytes req) pv,
      written path data (log (EvSign (req_bytes req)) w))).
Proof.
  intros pv sig Hhrs Hh Hr Hstore.
  pose proof (req_hrs_step _ _ _ _ Hhrs) as Hs.
  apply (sign_ahead req pv w h r s sig data Hhrs).
  - unfold hrs_lt, last_hrs, pv. simpl. unfold stepNone. lia.
  - reflexivity.
  - exact Hstore.
Qed.

(** X10. save has two outcomes only.  Either it returns, and then exactly
    the file at the validator's path was replaced by the serialisation of
    the validator with the escrow rule applied; or it panics (no file path,
    the serialiser failed, the write failed), and then the disk and the trace
    are as before.  In both the validator in memory is unchanged. *)
Theorem save_writes_or_panics (pv : PrivValidatorFS) (w : World) :
  (exists data,
     json_Marshal (bakPrivVal pv) = inr data /\ filePath pv <> "" /\
     save (pv, w) = (Ret tt, (pv, written (filePath pv) data w)))
  \/
  (exists msg,
     save (pv, w) = (Panic msg, (pv, w)) /\
     (filePath pv = "" \/ json_Marshal (bakPrivVal pv) = inl msg \/
      exists data, json_Marshal (bakPrivVal pv) = inr data /\
                   WriteFileAtomic_err w (filePath pv) data = Some msg)).
Proof.
  assert (Hfp : filePath (bakPrivVal pv) = filePath pv).
  { unfold bakPrivVal. destruct (negb _); reflexivity. }
  unfold save, WriteFileAtomic, cmn.PanicSanity, cmn.PanicCrisis, bind, ret, panic,
    get_pv, get_world, modify_world. cbn [fst snd].
  destruct (bool_decide (filePath pv = "")) eqn:Hpath.
  - right. eexists. split; [reflexivity |]. left.
    apply bool_decide_eq_true_1 in Hpath. exact Hpath.
  - apply bool_decide_eq_false_1 in Hpath.
    destruct (json_Marshal (bakPrivVal pv)) as [err | data] eqn:Hjson.
    + right. exists err. split; [reflexivity | right; left; reflexivity].
    + rewrite Hfp. cbn [fst snd].
      destruct (WriteFileAtomic_err w (filePath pv) data) as [err |] eqn:Hw; cbn [fst snd].
      * right. exists err. split; [reflexivity |]. right. right. exists data. auto.
      * left. exists data. repeat split; [exact Hpath].
Qed.

End Record.

(** ** Further properties: the timestamp checkers *)

Section Checkers.
Context `{Ext : Externals}.







Lemma sign_ReqVote_panic chainID vote st msg st' :
  sign (ReqVote chainID vote) st = (Panic msg, st') ->
  SignVote chainID vote st = (Panic msg, st').
Proof.
  simpl. unfold bind, ret.
  destruct (SignVote chainID vote st) as [[[v e]| |] st1]; cbn [fst snd]; congruence.
Qed.

Lemma sign_ReqProposal_panic chainID proposal st msg st' :
  sign (ReqProposal chainID proposal) st = (Panic msg, st') ->
  SignProposal chainID proposal st = (Panic msg, st').
Proof.
  simpl. unfold bind, ret.
  destruct (SignProposal chainID proposal st) as [[[v e]| |] st1]; cbn [fst snd];
    congruence.
Qed.

(** X12. At the HRS of the record, a request whose bytes are not
    byte-identical to the recorded ones needs the checker; when the recorded
    bytes do not decode, the call panics with the message of the checker and
    leaves the validator and the world untouched.  A byte-identical request
    is answered with the recorded signature without decoding anything. *)
Theorem sign_with_undecodable_record (pv : PrivValidatorFS) (w : World) (err : error) :
  is_Some (LastSignBytes pv) ->
  crypto.Empty (LastSignature pv) = false ->
  (forall chainID vote,
     req_hrs (ReqVote chainID vote) = Some (last_hrs pv) ->
     json_Unmarshal_vote (LastSignBytes pv) = inl err ->
     SignVote chainID vote (pv, w)
     = if bytes_Equal (SignBytes chainID (SVote vote)) (LastSignBytes pv)
       then (Ret (Vote.with_Signature (LastSignature pv) vote, None), (pv, w))
       else (Panic ("LastSignBytes cannot be unmarshalled into vote: " ++ err)%string,
             (pv, w)))
  /\
  (forall chainID proposal,
     req_hrs (ReqProposal chainID proposal) = Some (last_hrs pv) ->
     json_Unmarshal_proposal (LastSignBytes pv) = inl err ->
     SignProposal chainID proposal (pv, w)
     = if bytes_Equal (SignBytes chainID (SProposal proposal)) (LastSignBytes pv)
       then (Ret (Proposal.with_Signature (LastSignature pv) proposal, None), (pv, w))
       else (Panic ("LastSignBytes cannot be unmarshalled into proposal: " ++ err)%string,
             (pv, w))).
Proof.
  intros Hsome Hsig. split.
  - intros chainID vote Hhrs Hdec.
    pose proof (sign_signBytesHRS (ReqVote chainID vote) _ _ _ (pv, w) Hhrs) as Hrun.
    rewrite signBytesHRS_same in Hrun by assumption.
    change (req_bytes (ReqVote chainID vote)) with (SignBytes chainID (SVote vote)) in Hrun.
    destruct (bytes_Equal (SignBytes chainID (SVote vote)) (LastSignBytes pv)).
    + apply sign_ReqVote. exact Hrun.
    + apply sign_ReqVote_panic. rewrite Hrun. simpl.
      unfold checkVotesOnlyDifferByTimestamp. rewrite Hdec. reflexivity.
  - intros chainID proposal Hhrs Hdec.
    pose proof (sign_signBytesHRS (ReqProposal chainID proposal) _ _ _ (pv, w) Hhrs)
      as Hrun.
    rewrite signBytesHRS_same in Hrun by assumption.
    change (req_bytes (ReqProposal chainID proposal))
      with (SignBytes chainID (SProposal proposal)) in Hrun.
    destruct (bytes_Equal (SignBytes chainID (SProposal proposal)) (LastSignBytes pv)).
    + apply sign_ReqProposal. exact Hrun.
    + apply sign_ReqProposal_panic. rewrite Hrun. simpl.
      unfold checkProposalsOnlyDifferByTimestamp. rewrite Hdec. reflexivity.
Qed.

End Checkers.

(** ** Further properties: loading, and generating on first start *)

Section Loading.
Context `{Ext : Externals}.

(** X13. Loading never writes.  It exits when the file is missing or does
    not decode, panics when the file carries no private key, and otherwise
    returns the record of the file with the address and the public key
    derived again from the private key found in it (the ones in the file are
    ignored), that key kept as the escrowed key, the path set, and the Signer
    the caller's function builds from it. *)
Theorem LoadPrivValidatorFSWithSigner_outcomes (path : string)
    (signerFunc : PrivValidatorFS -> SignerT) (w : World) :
  snd (LoadPrivValidatorFSWithSigner path signerFunc w) = w /\
  (disk w !! path = None ->
   exists msg, fst (LoadPrivValidatorFSWithSigner path signerFunc w) = Exit msg) /\
  (forall data err,
     disk w !! path = Some data -> json_Unmarshal data = inl err ->
     fst (LoadPrivValidatorFSWithSigner path signerFunc w)
     = Exit ("Error reading PrivValidator from " ++ path ++ ": " ++ err ++ nl)%string) /\
  (forall data j,
     disk w !! path = Some data -> json_Unmarshal data = inr j ->
     fst (LoadPrivValidatorFSWithSigner path signerFunc w)
     = match PrivKey j with
       | None => Panic nil_deref
       | Some k => Ret (reloaded path (signerFunc (reloaded path nilSigner k j)) k j)
       end).
Proof.
  unfold LoadPrivValidatorFSWithSigner, bind, get, cmn.Exit, exit, panic, ret.
  repeat split.
  - destruct (disk w !! path); [| reflexivity].
    destruct (json_Unmarshal _) as [err | j]; [reflexivity |].
    cbv zeta. cbn [PrivKey]. destruct (PrivKey j); reflexivity.
  - intros ->. eexists. reflexivity.
  - intros data err -> ->. reflexivity.
  - intros data j -> ->. cbv zeta. cbn [PrivKey]. destruct (PrivKey j) eqn:Hk; [| reflexivity].
    unfold reloaded. cbn. reflexivity.
Qed.

Lemma load_after_write path data w j k signerFunc :
  json_Unmarshal data = inr j -> PrivKey j = Some k ->
  LoadPrivValidatorFSWithSigner path signerFunc (written path data w)
  = (Ret (reloaded path (signerFunc (reloaded path nilSigner k j)) k j),
     written path data w).
Proof.
  intros Hj Hk.
  unfold LoadPrivValidatorFSWithSigner, bind, get, cmn.Exit, exit, panic, ret.
  unfold written at 1. cbn [disk]. rewrite lookup_insert_eq, Hj.
  cbv zeta. cbn [PrivKey]. rewrite Hk. reflexivity.
Qed.

(** X14. What a save writes, a load reads back.  When the save goes through
    and the decoder returns the tagged fields that were serialised, loading
    the file gives a validator with the same SigningState, with the
    serialised key (the escrowed one when there is one) both as its private
    key and as its escrowed key, and with the same path. *)
Theorem save_then_load (pv : PrivValidatorFS) (w : World) (data : list byte)
    (j : PrivValidatorFS) (k : list byte) (signerFunc : PrivValidatorFS -> SignerT) :
  store_ok pv w data ->
  json_Unmarshal data = inr j ->
  json_fields j = json_fields (bakPrivVal pv) ->
  PrivKey (bakPrivVal pv) = Some k ->
  let w' := written (filePath pv) data w in
  save (pv, w) = (Ret tt, (pv, w')) /\
  exists pv',
    LoadPrivValidatorFSWithSigner (filePath pv) signerFunc w' = (Ret pv', w') /\
    SigningState pv' = SigningState pv /\
    PrivKey pv' = Some k /\ oldPrivKey pv' = Some k /\
    filePath pv' = filePath pv /\
    PubKey pv' = Some (PrivKey_PubKey k) /\
    Address pv' = Some (PubKey_Address (PrivKey_PubKey k)).
Proof.
  intros Hstore Hj Hfields Hk w'. split; [apply save_ok; exact Hstore |].
  unfold json_fields in Hfields. injection Hfields as _ _ Hh Hr Hs Hsig Hb Hkey.
  rewrite Hk in Hkey.
  eexists. split; [apply (load_after_write _ _ _ j k); assumption |].
  assert (Hbak : SigningState (bakPrivVal pv) = SigningState pv).
  { unfold bakPrivVal. destruct (negb _); reflexivity. }
  unfold SigningState in *. cbn. injection Hbak as <- <- <- <- <-.
  repeat split; congruence.
Qed.

Lemma LoadOrGen_absent path w :
  disk w !! path = None ->
  LoadOrGenPrivValidatorFS path w
  = match save (GenPrivValidatorFS path w, w) with
    | (Ret _, (pv', w')) => (Ret pv', w')
    | (Panic msg, (_, w')) => (Panic msg, w')
    | (Exit msg, (_, w')) => (Exit msg, w')
    end.
Proof.
  intros Hnone. unfold LoadOrGenPrivValidatorFS, bind at 1. unfold get at 1.
  rewrite bool_decide_eq_false_2 by (rewrite Hnone; intros [x [=]]).
  unfold bind, call, Save, ret.
  destruct (save _) as [[[]| |] [pv' w']]; reflexivity.
Qed.

(** X15. First start.  When no file is at the path, LoadOrGenPrivValidatorFS
    generates a validator and saves it before returning it: after the call
    the file holds its serialisation.  With an empty path it panics, having
    written nothing. *)
Theorem LoadOrGenPrivValidatorFS_generates (path : string) (w : World) :
  disk w !! path = None ->
  (forall data,
     store_ok (GenPrivValidatorFS path w) w data ->
     LoadOrGenPrivValidatorFS path w
     = (Ret (GenPrivValidatorFS path w), written path data w)) /\
  (path = "" ->
   LoadOrGenPrivValidatorFS path w
   = (Panic "Cannot save PrivValidator: filePath not set", w)).
Proof.
  intros Hnone. rewrite (LoadOrGen_absent _ _ Hnone). split.
  - intros data Hstore. rewrite (save_ok _ _ _ Hstore). reflexivity.
  - intros ->. reflexivity.
Qed.

(** X16. Second start.  When a file is at the path, LoadOrGenPrivValidatorFS
    generates nothing and writes nothing; on the file a first start left,
    with a decoder that returns the tagged fields that were serialised, it
    returns the very validator the first start returned. *)
Theorem LoadOrGenPrivValidatorFS_restart (path : string) (w : World) (data : list byte)
    (j : PrivValidatorFS) :
  disk w !! path = None ->
  store_ok (GenPrivValidatorFS path w) w data ->
  json_Unmarshal data = inr j ->
  json_fields j = json_fields (GenPrivValidatorFS path w) ->
  let pv := GenPrivValidatorFS path w in
  let w1 := written path data w in
  LoadOrGenPrivValidatorFS path w = (Ret pv, w1) /\
  LoadOrGenPrivValidatorFS path w1 = (Ret pv, w1).
Proof.
  intros Hnone Hstore Hj Hfields pv w1. split.
  - rewrite (LoadOrGen_absent _ _ Hnone), (save_ok _ _ _ Hstore). reflexivity.
  - unfold LoadOrGenPrivValidatorFS, bind at 1. unfold get at 1.
    rewrite bool_decide_eq_true_2
      by (unfold w1; simpl; rewrite lookup_insert_eq; eexists; reflexivity).
    unfold LoadPrivValidatorFS. unfold w1.
    unfold json_fields in Hfields. injection Hfields as _ _ Hh Hr Hs Hsig Hb Hkey.
    rewrite (load_after_write path data w j (GenPrivKeyEd25519 w) _ Hj Hkey).
    f_equal. unfold reloaded, pv, GenPrivValidatorFS. cbn.
    rewrite Hh, Hr, Hs, Hsig, Hb. reflexivity.
Qed.

End Loading.

(** ** Further properties: the order of validators by address *)

Section ByAddress.

Lemma to_N_inj x y : Byte.to_N x = Byte.to_N y -> x = y.
Proof.
  intros H. pose proof (Byte.of_to_N x) as Hx. rewrite H, Byte.of_to_N in Hx.
  congruence.
Qed.

Lemma bytes_Compare_list_refl a : bytes_Compare_list a a = 0.
Proof. induction a as [| x a IH]; simpl; [| rewrite N.compare_refl]; auto. Qed.

Lemma bytes_Compare_list_eq a : forall b, bytes_Compare_list a b = 0 -> a = b.
Proof.
  induction a as [| x a IH]; intros [| y b]; simpl; try discriminate; auto.
  destruct (N.compare_spec (Byte.to_N x) (Byte.to_N y)) as [H | H | H]; try discriminate.
  intros Hab. apply to_N_inj in H. f_equal; auto.
Qed.

Lemma bytes_Compare_list_antisym a : forall b,
  bytes_Compare_list a b = -1 <-> bytes_Compare_list b a = 1.
Proof.
  induction a as [| x a IH]; intros [| y b]; simpl; try (split; (discriminate || reflexivity)).
  rewrite (N.compare_antisym (Byte.to_N x) (Byte.to_N y)).
  destruct (Byte.to_N x ?= Byte.to_N y)%N; simpl;
    [apply IH | split; (discriminate || reflexivity) ..].
Qed.

Lemma bytes_Compare_list_range a : forall b,
  bytes_Compare_list a b = -1 \/ bytes_Compare_list a b = 0 \/ bytes_Compare_list a b = 1.
Proof.
  induction a as [| x a IH]; intros [| y b]; simpl; auto.
  destruct (Byte.to_N x ?= Byte.to_N y)%N; auto.
Qed.

Lemma bytes_Compare_list_trans a : forall b c,
  bytes_Compare_list a b = -1 -> bytes_Compare_list b c = -1 ->
  bytes_Compare_list a c = -1.
Proof.
  induction a as [| x a IH]; intros [| y b] [| z c]; simpl; try discriminate; auto.
  destruct (N.compare_spec (Byte.to_N x) (Byte.to_N y)) as [Hxy | Hxy | Hxy];
    destruct (N.compare_spec (Byte.to_N y) (Byte.to_N z)) as [Hyz | Hyz | Hyz];
    try discriminate; intros H1 H2.
  - rewrite Hxy, Hyz, N.compare_refl. eauto.
  - rewrite Hxy. apply N.compare_lt_iff in Hyz. rewrite Hyz. reflexivity.
  - rewrite <- Hyz. apply N.compare_lt_iff in Hxy. rewrite Hxy. reflexivity.
  - assert (Hxz : (Byte.to_N x < Byte.to_N z)%N) by lia.
    apply N.compare_lt_iff in Hxz. rewrite Hxz. reflexivity.
Qed.

Lemma at_index_in_range (pvs : list PrivValidatorFS) i :
  0 <= i < Len pvs ->
  exists pv, pvs !! Z.to_nat i = Some pv /\ at_index i pvs = (Ret pv, pvs).
Proof.
  intros Hi. unfold at_index.
  destruct (Z.leb_spec 0 i); [| lia]. destruct (Z.ltb_spec i (Len pvs)); [| lia].
  simpl. destruct (pvs !! Z.to_nat i) as [pv|] eqn:Hpv; [eauto |].
  apply lookup_ge_None in Hpv. unfold Len in Hi. lia.
Qed.

Lemma at_index_out_of_range (pvs : list PrivValidatorFS) i :
  ~ 0 <= i < Len pvs -> at_index i pvs = (Panic index_out_of_range, pvs).
Proof.
  intros Hi. unfold at_index.
  destruct (Z.leb_spec 0 i); destruct (Z.ltb_spec i (Len pvs)); simpl;
    try reflexivity. lia.
Qed.

Lemma classic_range i (pvs : list PrivValidatorFS) :
  0 <= i < Len pvs \/ ~ 0 <= i < Len pvs.
Proof. lia. Qed.

Lemma Less_in_range (pvs : list PrivValidatorFS) i j pvi pvj :
  0 <= i < Len pvs -> 0 <= j < Len pvs ->
  pvs !! Z.to_nat i = Some pvi -> pvs !! Z.to_nat j = Some pvj ->
  Less i j pvs
  = (Ret (bytes_Compare_list (contents (Address pvi)) (contents (Address pvj)) =? -1), pvs).
Proof.
  intros Hi Hj Hpi Hpj.
  destruct (at_index_in_range pvs i Hi) as (pvi' & Hi' & Hati).
  destruct (at_index_in_range pvs j Hj) as (pvj' & Hj' & Hatj).
  unfold Less, bind, ret. rewrite Hati, Hatj. unfold bytes_Compare, GetAddress.
  rewrite Hpi in Hi'. rewrite Hpj in Hj'. injection Hi' as <-. injection Hj' as <-.
  reflexivity.
Qed.

(** X17. Less is a strict total order on the addresses of a slice: it is
    irreflexive, asymmetric and transitive, and two validators neither of
    which is less than the other have the same address bytes.  It never
    changes the slice. *)
Theorem Less_strict_total_order (pvs : list PrivValidatorFS) (i j k : Z)
    (pvi pvj : PrivValidatorFS) :
  0 <= i < Len pvs -> 0 <= j < Len pvs -> 0 <= k < Len pvs ->
  pvs !! Z.to_nat i = Some pvi -> pvs !! Z.to_nat j = Some pvj ->
  Less i i pvs = (Ret false, pvs) /\
  (exists b, Less i j pvs = (Ret b, pvs)) /\
  (Less i j pvs = (Ret true, pvs) -> Less j i pvs = (Ret false, pvs)) /\
  (Less i j pvs = (Ret true, pvs) -> Less j k pvs = (Ret true, pvs) ->
   Less i k pvs = (Ret true, pvs)) /\
  (Less i j pvs = (Ret false, pvs) -> Less j i pvs = (Ret false, pvs) ->
   contents (GetAddress pvi) = contents (GetAddress pvj)).
Proof.
  intros Hi Hj Hk Hpi Hpj.
  destruct (at_index_in_range pvs k Hk) as (pvk & Hpk & _).
  rewrite (Less_in_range pvs i i pvi pvi), (Less_in_range pvs i j pvi pvj),
    (Less_in_range pvs j i pvj pvi), (Less_in_range pvs j k pvj pvk),
    (Less_in_range pvs i k pvi pvk) by assumption.
  set (a := contents (Address pvi)). set (b := contents (Address pvj)).
  set (c := contents (Address pvk)).
  split; [| split; [| split; [| split]]].
  - rewrite bytes_Compare_list_refl. reflexivity.
  - eexists. reflexivity.
  - intros [= H%Z.eqb_eq]. apply bytes_Compare_list_antisym in H.
    rewrite H. reflexivity.
  - intros [= H1%Z.eqb_eq] [= H2%Z.eqb_eq].
    rewrite (bytes_Compare_list_trans a b c H1 H2). reflexivity.
  - intros [= H1%Z.eqb_neq] [= H2%Z.eqb_neq].
    apply bytes_Compare_list_eq.
    destruct (bytes_Compare_list_range a b) as [H | [H | H]]; [contradiction | exact H |].
    apply bytes_Compare_list_antisym in H. contradiction.
Qed.

Lemma Swap_in_range (pvs : list PrivValidatorFS) i j pvi pvj :
  0 <= i < Len pvs -> 0 <= j < Len pvs ->
  pvs !! Z.to_nat i = Some pvi -> pvs !! Z.to_nat j = Some pvj ->
  Swap i j pvs = (Ret tt, <[Z.to_nat j := pvi]> (<[Z.to_nat i := pvj]> pvs)).
Proof.
  intros Hi Hj Hpi Hpj.
  destruct (at_index_in_range pvs i Hi) as (pvi' & Hi' & Hati).
  destruct (at_index_in_range pvs j Hj) as (pvj' & Hj' & Hatj).
  rewrite Hpi in Hi'. rewrite Hpj in Hj'. injection Hi' as <-. injection Hj' as <-.
  unfold Swap, bind, ret. rewrite Hati, Hatj. unfold set_index.
  destruct (Z.leb_spec 0 i); [| lia]. destruct (Z.ltb_spec i (Len pvs)); [| lia].
  simpl. unfold Len. rewrite length_insert. fold (Len pvs).
  destruct (Z.leb_spec 0 j); [| lia]. destruct (Z.ltb_spec j (Len pvs)); [| lia].
  reflexivity.
Qed.

(** X18. Swap exchanges the validators at two positions of the slice and
    nothing else: the result is a permutation of the slice of the same
    length, every other position keeps its validator, a second Swap of the
    same positions restores the slice, and Less at the two positions answers
    on the result what it answered on the slice with the positions
    exchanged. *)
Theorem Swap_exchanges (pvs : list PrivValidatorFS) (i j : Z) :
  0 <= i < Len pvs -> 0 <= j < Len pvs ->
  exists pvs' : list PrivValidatorFS,
    Swap i j pvs = (Ret tt, pvs') /\
    Len pvs' = Len pvs /\
    pvs' ≡ₚ pvs /\
    pvs' !! Z.to_nat i = pvs !! Z.to_nat j /\
    pvs' !! Z.to_nat j = pvs !! Z.to_nat i /\
    (forall k, k <> Z.to_nat i -> k <> Z.to_nat j -> pvs' !! k = pvs !! k) /\
    Swap i j pvs' = (Ret tt, pvs) /\
    fst (Less i j pvs') = fst (Less j i pvs).
Proof.
  intros Hi Hj.
  destruct (at_index_in_range pvs i Hi) as (pvi & Hpi & _).
  destruct (at_index_in_range pvs j Hj) as (pvj & Hpj & _).
  set (pvs' := <[Z.to_nat j := pvi]> (<[Z.to_nat i := pvj]> pvs)).
  assert (Hlen : Len pvs' = Len pvs).
  { unfold Len, pvs'. rewrite !length_insert. reflexivity. }
  assert (Hni : (Z.to_nat i < length pvs)%nat) by (unfold Len in Hi; lia).
  assert (Hnj : (Z.to_nat j < length pvs)%nat) by (unfold Len in Hj; lia).
  assert (Hi' : pvs' !! Z.to_nat i = Some pvj).
  { unfold pvs'. destruct (decide (Z.to_nat j = Z.to_nat i)) as [E | E].
    - rewrite E, list_lookup_insert_eq by (rewrite length_insert; exact Hni).
      rewrite E in Hpj. rewrite Hpi in Hpj. exact Hpj.
    - rewrite list_lookup_insert_ne by exact E.
      apply list_lookup_insert_eq. exact Hni. }
  assert (Hj' : pvs' !! Z.to_nat j = Some pvi).
  { unfold pvs'. apply list_lookup_insert_eq. rewrite length_insert. exact Hnj. }
  exists pvs'. split; [apply Swap_in_range; assumption |].
  split; [exact Hlen |]. split; [apply Permutation_insert_swap; assumption |].
  split; [rewrite Hi', Hpj; reflexivity |].
  split; [rewrite Hj', Hpi; reflexivity |]. split; [| split].
  - intros k Hki Hkj. unfold pvs'.
    rewrite list_lookup_insert_ne by (intros E; apply Hkj; symmetry; exact E).
    rewrite list_lookup_insert_ne by (intros E; apply Hki; symmetry; exact E).
    reflexivity.
  - rewrite (Swap_in_range pvs' i j pvj pvi) by (rewrite ?Hlen; assumption).
    f_equal. apply list_eq. intros k.
    destruct (decide (k = Z.to_nat j)) as [-> | Hkj].
    + rewrite list_lookup_insert_eq by (unfold pvs'; rewrite !length_insert; exact Hnj).
      symmetry. exact Hpj.
    + rewrite list_lookup_insert_ne by (intros E; apply Hkj; symmetry; exact E).
      destruct (decide (k = Z.to_nat i)) as [-> | Hki].
      * rewrite list_lookup_insert_eq by (unfold pvs'; rewrite !length_insert; exact Hni).
        symmetry. exact Hpi.
      * rewrite list_lookup_insert_ne by (intros E; apply Hki; symmetry; exact E).
        unfold pvs'.
        rewrite list_lookup_insert_ne by (intros E; apply Hkj; symmetry; exact E).
        rewrite list_lookup_insert_ne by (intros E; apply Hki; symmetry; exact E).
        reflexivity.
  - rewrite (Less_in_range pvs' i j pvj pvi), (Less_in_range pvs j i pvj pvi)
      by (rewrite ?Hlen; assumption).
    reflexivity.
Qed.

(** X19. An index outside the slice makes Less and Swap panic, and Swap
    then leaves the slice as it was: both elements are read before either
    is written. *)
Theorem Less_Swap_out_of_range (pvs : list PrivValidatorFS) (i j : Z) :
  ~ 0 <= i < Len pvs \/ ~ 0 <= j < Len pvs ->
  Less i j pvs = (Panic index_out_of_range, pvs) /\
  Swap i j pvs = (Panic index_out_of_range, pvs).
Proof.
  intros Hout. unfold Less, Swap, bind.
  destruct (classic_range i pvs) as [Hi | Hi].
  - destruct (at_index_in_range pvs i Hi) as (pvi & _ & ->).
    destruct Hout as [Hout | Hout]; [contradiction |].
    rewrite (at_index_out_of_range pvs j Hout). split; reflexivity.
  - rewrite (at_index_out_of_range pvs i Hi). split; reflexivity.
Qed.

End ByAddress.

(** ** The further statements on the concrete environment *)

Section FurtherInstances.
Import Toy.

(** The proposal of height 5 on the fresh validator reaches the Signer; the
    same proposal on the validator that signed it does not. *)
Lemma Signer_invoked_iff_ahead_witness :
  signer_calls (snd (snd (sign (Ext := ext) (ReqProposal "chain-A" (proposal 5 0 7)) (pv0, w0))))
  = (signer_calls w0 ++ [req_bytes (Ext := ext) (ReqProposal "chain-A" (proposal 5 0 7))])%list
  /\
  signer_calls (snd (snd (sign (Ext := ext) (ReqProposal "chain-B" (proposal 5 0 7)) (pv5, w5))))
  = signer_calls w5.
Proof.
  split.
  - apply (proj1 (Signer_invoked_iff_ahead (Ext := ext)
                    (ReqProposal "chain-A" (proposal 5 0 7)) pv0 w0) (5, 0, stepPropose)).
    + reflexivity.
    + left. vm_compute; reflexivity.
  - apply (proj2 (Signer_invoked_iff_ahead (Ext := ext)
                    (ReqProposal "chain-B" (proposal 5 0 7)) pv5 w5)).
    intros hrs [= <-] Hlt. exact (hrs_lt_irrefl _ Hlt).
Defined.

(** The proposal of height 5 asked twice, with a rejected prevote in
    between: the same signature both times. *)
Lemma no_double_sign_witness :
  exists outs st' outi outj,
    sign_all (Ext := ext) reqs3 (pv0, w0) = (Ret outs, st') /\
    outs !! 0%nat = Some (outi, None) /\ outs !! 2%nat = Some (outj, None) /\
    msg_Signature outi = msg_Signature outj.
Proof.
  destruct (sign_all (Ext := ext) reqs3 (pv0, w0)) as [r st'] eqn:Hrun.
  vm_compute in Hrun. injection Hrun as <- <-.
  eexists _, _, _, _. split; [reflexivity |]. split; [reflexivity |]. split; [reflexivity |].
  eapply (no_double_sign (Ext := ext) reqs3 pv0 w0 _ _ 0 2).
  - vm_compute. reflexivity.
  - reflexivity.
  - reflexivity.
  - reflexivity.
  - reflexivity.
  - reflexivity.
Defined.

(** The proposal of height 5 on the fresh validator, twice. *)
Lemma sign_twice_witness :
  sign (Ext := ext) (ReqProposal "chain-A" (proposal 5 0 7)) (pv5, w5)
  = (Ret (req_signed (LastSignature pv5) (ReqProposal "chain-A" (proposal 5 0 7)), None),
     (pv5, w5)).
Proof.
  pose proof (sign_twice (Ext := ext) (ReqProposal "chain-A" (proposal 5 0 7)) pv0 w0
                5 0 stepPropose
                (PrivKey_Sign (Externals := ext) [x2a]
                   (req_bytes (Ext := ext) (ReqProposal "chain-A" (proposal 5 0 7))))
                [x2a; x05; x00; x01] eq_refl) as H.
  destruct H as [_ H].
  - left. vm_compute; reflexivity.
  - reflexivity.
  - reflexivity.
  - eexists; reflexivity.
  - split; [discriminate | split; reflexivity].
  - exact H.
Defined.

(** Signing, resetting, fast-forwarding and signing again keep the
    invariant of the generated validator. *)
Lemma operations_keep_invariant_witness :
  SigningState_invariant
    (fst (exec_all (Ext := ext)
            [OpSignProposal "chain-A" (proposal 5 0 7); OpReset;
             OpSignVote "chain-A" (prevote 1 0 0); OpModifyLastHeight 9;
             OpSignVote "chain-A" (precommit 9 1 0)] (pv0, w0))).
Proof.
  apply (operations_keep_invariant (Ext := ext)).
  - split; [intros [x [=]] | intros [=]].
  - intros w msg sig [= <-]. reflexivity.
  - intros chainID msg. eexists; reflexivity.
Defined.


(** After Reset, the proposal that conflicts with the signed one reaches
    the Signer. *)
Lemma Reset_forgets_witness :
  signer_calls (snd (snd (sign (Ext := ext) (ReqProposal "chain-B" (proposal 5 0 7))
                            (snd (Reset (Ext := ext) (pv5, w5))))))
  = (signer_calls (snd (snd (Reset (Ext := ext) (pv5, w5))))
     ++ [req_bytes (Ext := ext) (ReqProposal "chain-B" (proposal 5 0 7))])%list.
Proof.
  apply (Reset_forgets (Ext := ext) pv5 w5 (ReqProposal "chain-B" (proposal 5 0 7))
           5 0 stepPropose eq_refl); lia.
Defined.

(** The first prevote of a generated validator. *)
Lemma GenPrivValidatorFS_first_sign_witness :
  sign (Ext := ext) (ReqVote "chain-A" (prevote 0 0 0)) (pv0, w0)
  = (Ret (req_signed
            (PrivKey_Sign (Externals := ext) [x2a]
               (req_bytes (Ext := ext) (ReqVote "chain-A" (prevote 0 0 0))))
            (ReqVote "chain-A" (prevote 0 0 0)), None),
     (set_last 0 0 stepPrevote
        (PrivKey_Sign (Externals := ext) [x2a]
           (req_bytes (Ext := ext) (ReqVote "chain-A" (prevote 0 0 0))))
        (req_bytes (Ext := ext) (ReqVote "chain-A" (prevote 0 0 0))) pv0,
      written "priv_validator.json" [x2a; x00; x00; x02]
        (log (EvSign (req_bytes (Ext := ext) (ReqVote "chain-A" (prevote 0 0 0)))) w0))).
Proof.
  apply (GenPrivValidatorFS_first_sign (Ext := ext) "priv_validator.json" w0 w0
           (ReqVote "chain-A" (prevote 0 0 0)) 0 0 stepPrevote [x2a; x00; x00; x02] eq_refl);
    [lia | lia |].
  split; [discriminate | split; reflexivity].
Defined.


(** A proposal at the HRS of a record whose bytes do not decode. *)
Lemma sign_with_undecodable_record_witness :
  SignProposal (Ext := ext) "chain-A" (proposal 5 0 7) (pv_garbled, w0)
  = (Panic "LastSignBytes cannot be unmarshalled into proposal: unexpected end of JSON input",
     (pv_garbled, w0)).
Proof.
  apply (proj2 (sign_with_undecodable_record (Ext := ext) pv_garbled w0
                  "unexpected end of JSON input"
                  ltac:(eexists; reflexivity) eq_refl)
           "chain-A" (proposal 5 0 7) eq_refl eq_refl).
Defined.

(** Saving the fast-forwarded validator and loading the file. *)
Lemma save_then_load_witness :
  exists pv',
    LoadPrivValidatorFSWithSigner (Ext := ext_codec) "priv_validator.json"
      (fun privVal => NewDefaultSigner (Ext := ext_codec) (PrivKey privVal))
      (written "priv_validator.json" [x2a; x14; x00; x03] w0)
    = (Ret pv', written "priv_validator.json" [x2a; x14; x00; x03] w0) /\
    SigningState pv' = SigningState pv20c /\
    PrivKey pv' = Some [x2a] /\ oldPrivKey pv' = Some [x2a].
Proof.
  destruct (save_then_load (Ext := ext_codec) pv20c w0 [x2a; x14; x00; x03]
              (mkPV (Some [x2a]) (Some [x2a]) 20 0 3 None None (Some [x2a])
                    (fun _ _ => Panic "") "" None)
              [x2a] (fun privVal => NewDefaultSigner (Ext := ext_codec) (PrivKey privVal)))
    as (_ & pv' & Hload & Hstate & Hkey & Hold & _).
  - split; [discriminate | split; reflexivity].
  - reflexivity.
  - reflexivity.
  - reflexivity.
  - exists pv'. split; [exact Hload | split; [exact Hstate | split; [exact Hkey | exact Hold]]].
Defined.

(** First start on an empty disk. *)
Lemma LoadOrGenPrivValidatorFS_generates_witness :
  LoadOrGenPrivValidatorFS (Ext := ext) "priv_validator.json" w0
  = (Ret pv0, written "priv_validator.json" [x2a; x00; x00; x00] w0)
  /\
  LoadOrGenPrivValidatorFS (Ext := ext) "" w0
  = (Panic "Cannot save PrivValidator: filePath not set", w0).
Proof.
  split.
  - apply (proj1 (LoadOrGenPrivValidatorFS_generates (Ext := ext) "priv_validator.json" w0
                    eq_refl)).
    split; [discriminate | split; reflexivity].
  - apply (proj2 (LoadOrGenPrivValidatorFS_generates (Ext := ext) "" w0 eq_refl)).
    reflexivity.
Defined.

(** First and second start, with the decoder. *)
Lemma LoadOrGenPrivValidatorFS_restart_witness :
  let pv := GenPrivValidatorFS (Ext := ext_codec) "priv_validator.json" w0 in
  let w1 := written "priv_validator.json" [x2a; x00; x00; x00] w0 in
  LoadOrGenPrivValidatorFS (Ext := ext_codec) "priv_validator.json" w0 = (Ret pv, w1) /\
  LoadOrGenPrivValidatorFS (Ext := ext_codec) "priv_validator.json" w1 = (Ret pv, w1).
Proof.
  apply (LoadOrGenPrivValidatorFS_restart (Ext := ext_codec) "priv_validator.json" w0
           [x2a; x00; x00; x00]
           (mkPV (Some [x2a]) (Some [x2a]) 0 0 0 None None (Some [x2a])
                 (fun _ _ => Panic "") "" None)).
  - reflexivity.
  - split; [discriminate | split; reflexivity].
  - reflexivity.
  - reflexivity.
Defined.

(** The addresses "a" < "ab" < "b" at positions 1, 2 and 0. *)
Lemma Less_strict_total_order_witness :
  Less 1 2 three = (Ret true, three) /\ Less 2 0 three = (Ret true, three) /\
  Less 1 0 three = (Ret true, three) /\ Less 2 1 three = (Ret false, three).
Proof.
  destruct (Less_strict_total_order three 1 2 0 (with_address [x61]) (with_address [x61; x62]))
    as (_ & _ & Hasym & Htrans & _); try reflexivity; try (unfold Len; simpl; lia).
  assert (H12 : Less 1 2 three = (Ret true, three)) by reflexivity.
  assert (H20 : Less 2 0 three = (Ret true, three)) by reflexivity.
  split; [exact H12 | split; [exact H20 | split]];
    [exact (Htrans H12 H20) | exact (Hasym H12)].
Defined.

(** Swapping positions 0 and 1. *)
Lemma Swap_exchanges_witness :
  exists pvs' : list PrivValidatorFS,
    Swap 0 1 three = (Ret tt, pvs') /\ pvs' ≡ₚ three /\ Swap 0 1 pvs' = (Ret tt, three).
Proof.
  destruct (Swap_exchanges three 0 1) as (pvs' & H1 & _ & H2 & _ & _ & _ & H3 & _);
    try (unfold Len; simpl; lia).
  exists pvs'. split; [exact H1 | split; [exact H2 | exact H3]].
Defined.

(** Position 3 of a slice of three. *)
Lemma Less_Swap_out_of_range_witness :
  Less 0 3 three = (Panic index_out_of_range, three) /\
  Swap 0 3 three = (Panic index_out_of_range, three).
Proof.
  apply (Less_Swap_out_of_range three 0 3). right. unfold Len. simpl. lia.
Defined.

End FurtherInstances.
